(** * video-to-text-whisper: block grouping, device selection, batch driver

    A shallow embedding of [src/whisper_transcriber/core.py],
    [src/whisper_transcriber/cli.py] and the grouping loop of [src/main.py].

    Modelling conventions.
    - A Python [str] is a [string] whose characters are read as code points
      below 256.
    - A time stamp is a finite float, held as the rational ([Q]) it is
      exactly.  [format(x, ".2f")] rounds that exact value (ties to even);
      [last_end - block_start] is the exact difference rounded to the
      nearest double ([PyFloat.sub]), and its comparison with the integer
      threshold is exact.  Infinite, not-a-number and negative-zero time
      stamps are outside the model.
    - A Python exception is a value of [exn]; code that may raise returns
      [res A].  [None] is [option]'s [None].
    - The speech model, the transcoder and the exporters are external; they
      are parameters of the functions that call them. *)

From Stdlib Require Import ZArith QArith Lia String Ascii DecimalString Sorted.
From stdpp Require Import base list strings gmap sorting.

(** ** Exceptions and results *)

Inductive exn : Type :=
| TypeError
| SystemExit (code : Z)
| OtherError (name : string).

Inductive res (A : Type) : Type :=
| Ok (a : A)
| Raise (e : exn).

Arguments Ok {A} a.
Arguments Raise {A} e.

#[global] Instance res_ret : MRet res := fun A a => Ok a.

#[global] Instance res_fmap : FMap res := fun A B f m =>
  match m with
  | Ok a => Ok (f a)
  | Raise e => Raise e
  end.

#[global] Instance res_bind : MBind res := fun A B k m =>
  match m with
  | Ok a => k a
  | Raise e => Raise e
  end.

(** ** The world: file system and standard output

    Effectful code is a function from the world to a result and the world
    it leaves behind; an exception keeps the effects made before it. *)

Inductive node : Type := File | Dir.

#[global] Instance node_eq_dec : EqDecision node.
Proof. solve_decision. Defined.

Record World : Type := mkWorld {
  fs : gmap string node;
  stdout : list string
}.

Definition M (A : Type) : Type := World -> res A * World.

#[global] Instance M_ret : MRet M := fun A a w => (Ok a, w).

#[global] Instance M_bind : MBind M := fun A B k m w =>
  match m w with
  | (Ok a, w') => k a w'
  | (Raise e, w') => (Raise e, w')
  end.

Definition raise {A} (e : exn) : M A := fun w => (Raise e, w).

Definition lift_res {A} (r : res A) : M A := fun w => (r, w).

(** [try: body finally: cleanup].  The cleanup runs on both exits of the
    body; an exception of the cleanup replaces the body's outcome. *)
Definition try_finally {A} (body : M A) (cleanup : M unit) : M A := fun w =>
  let '(r, w1) := body w in
  match cleanup w1 with
  | (Ok _, w2) => (r, w2)
  | (Raise e, w2) => (Raise e, w2)
  end.

(** [for x in l: body(x)] *)
Fixpoint for_each {A} (l : list A) (body : A -> M unit) : M unit :=
  match l with
  | [] => mret tt
  | x :: rest => body x ;; for_each rest body
  end.

(** [print(line)]: one entry of [stdout] per call. *)
Definition print (line : string) : M unit := fun w =>
  (Ok tt, mkWorld (fs w) (stdout w ++ [line])).

(** The exit status of the interpreter for the outcome of the main module:
    0 on a normal return, the code of an uncaught [SystemExit], 1 after any
    other uncaught exception. *)
Definition exit_status {A} (r : res A) : Z :=
  match r with
  | Ok _ => 0
  | Raise (SystemExit code) => code
  | Raise _ => 1
  end.

(** ** Python string primitives *)

Module PyStr.

(** [str.isspace] on one character, for code points below 256. *)
Definition is_space (c : ascii) : bool :=
  let n := N_of_ascii c in
  ((9 <=? n) && (n <=? 13) || (28 <=? n) && (n <=? 32)
   || (n =? 133) || (n =? 160))%N.

Fixpoint lstrip (s : string) : string :=
  match s with
  | EmptyString => EmptyString
  | String c r => if is_space c then lstrip r else s
  end.

Fixpoint rstrip (s : string) : string :=
  match s with
  | EmptyString => EmptyString
  | String c r =>
      match rstrip r with
      | EmptyString => if is_space c then EmptyString else String c EmptyString
      | r' => String c r'
      end
  end.

(** [s.strip()] *)
Definition strip (s : string) : string := rstrip (lstrip s).

(** [sep.join(l)] *)
Definition join (sep : string) (l : list string) : string :=
  String.concat sep l.

(** [str.lower] on one character, for code points below 256. *)
Definition lower_char (c : ascii) : ascii :=
  let n := N_of_ascii c in
  if ((65 <=? n) && (n <=? 90)
      || (192 <=? n) && (n <=? 222) && negb (n =? 215))%N
  then ascii_of_N (n + 32) else c.

Fixpoint lower (s : string) : string :=
  match s with
  | EmptyString => EmptyString
  | String c r => String (lower_char c) (lower r)
  end.

(** [s.endswith(suffix)] *)
Definition endswith (s suffix : string) : bool :=
  let n := String.length s in
  let m := String.length suffix in
  (m <=? n)%nat && String.eqb (String.substring (n - m)%nat m s) suffix.

(** [s.endswith(t)] for a tuple [t] of suffixes. *)
Definition endswith_any (s : string) (t : list string) : bool :=
  existsb (endswith s) t.

(** [str.upper] on one character, for code points below 256: the sharp
    s becomes "SS".  The capitals of the micro sign (181) and of y with
    diaeresis (255) lie above 255, outside the strings of the model; these
    two are left as they are. *)
Definition upper_char (c : ascii) : string :=
  let n := N_of_ascii c in
  if (n =? 223)%N then "SS"
  else if ((97 <=? n) && (n <=? 122)
           || (224 <=? n) && (n <=? 254) && negb (n =? 247))%N
  then String (ascii_of_N (n - 32)) EmptyString
  else String c EmptyString.

Fixpoint upper (s : string) : string :=
  match s with
  | EmptyString => EmptyString
  | String c r => upper_char c +:+ upper r
  end.

(** [s.isascii()] *)
Fixpoint isascii (s : string) : bool :=
  match s with
  | EmptyString => true
  | String c r => (N_of_ascii c <? 128)%N && isascii r
  end.

(** The one-character string of a line feed. *)
Definition nl : string := String (ascii_of_N 10) EmptyString.

Fixpoint rfind_from (c : ascii) (s : string) (i acc : Z) : Z :=
  match s with
  | EmptyString => acc
  | String x r => rfind_from c r (i + 1)%Z (if Ascii.eqb x c then i else acc)
  end.

(** [s.rfind(c)] for a one-character [c]: the last index, or -1. *)
Definition rfind (c : ascii) (s : string) : Z := rfind_from c s 0 (-1).

(** [bool(s)] *)
Definition truthy (s : string) : bool :=
  match s with
  | EmptyString => false
  | String _ _ => true
  end.

(** Decimal digits of a natural number. *)
Definition str_of_N (n : N) : string :=
  NilZero.string_of_uint (N.to_uint n).

(** [format(q, ".2f")]: sign, integer part, a dot and two decimals, the
    exact value rounded to the nearest hundredth, ties to even. *)
Definition format_2f (q : Q) : string :=
  let n := (Z.abs (Qnum q) * 100)%Z in
  let d := Z.pos (Qden q) in
  let fl := (n / d)%Z in
  let r := (n mod d)%Z in
  let h := if (2 * r <? d)%Z then fl
           else if (d <? 2 * r)%Z then (fl + 1)%Z
           else if Z.even fl then fl else (fl + 1)%Z in
  let ip := Z.to_N (h / 100) in
  let fp := Z.to_N (h mod 100) in
  (if (Qnum q <? 0)%Z then "-" else "")
  +:+ str_of_N ip +:+ "."
  +:+ (if (fp <? 10)%N then "0" else "") +:+ str_of_N fp.

(** [format(v, ".2f")] where [v] may be [None]: [NoneType.__format__]
    rejects a non-empty format string with [TypeError]. *)
Definition format_2f_opt (v : option Q) : res string :=
  match v with
  | Some q => Ok (format_2f q)
  | None => Raise TypeError
  end.

End PyStr.

(** ** Python floats (IEEE 754 binary64)

    A finite float is the rational it stands for; an operation returns the
    exact result rounded to the nearest double, ties to even, or an
    infinity when the rounded result is out of range. *)

Module PyFloat.

Inductive fval : Type :=
| Finite (q : Q)
| Inf (negative : bool).

(** [a / b] rounded to the nearest integer, ties to even ([0 <= a],
    [0 < b]). *)
Definition round_half_even (a b : Z) : Z :=
  let q := (a / b)%Z in
  let r := (a mod b)%Z in
  if (2 * r <? b)%Z then q
  else if (b <? 2 * r)%Z then (q + 1)%Z
  else if Z.even q then q else (q + 1)%Z.

(** Numerator and denominator of [(n / d) / 2 ^ e]. *)
Definition scale (n d e : Z) : Z * Z :=
  if (0 <=? e)%Z then (n, d * 2 ^ e)%Z else (n * 2 ^ (- e), d)%Z.

(** The integer part of the binary logarithm of [n / d] ([0 < n],
    [0 < d]). *)
Definition floor_log2 (n d : Z) : Z :=
  let k := (Z.log2 n - Z.log2 d)%Z in
  let '(a, b) := scale n d k in
  if (b <=? a)%Z then k else (k - 1)%Z.

(** [m * 2 ^ e] *)
Definition value (m e : Z) : Q :=
  if (0 <=? e)%Z then inject_Z (m * 2 ^ e)
  else Qmake m (Z.to_pos (2 ^ (- e))).

(** The double nearest to [n / d] ([0 < n], [0 < d]): 53 significant bits,
    the last one worth at least [2 ^ -1074]; infinite from [2 ^ 1024] on. *)
Definition round_pos (n d : Z) : fval :=
  let e := Z.max (floor_log2 n d - 52) (-1074) in
  let '(a, b) := scale n d e in
  let m := round_half_even a b in
  if (0 <=? e)%Z && (2 ^ 1024 <=? m * 2 ^ e)%Z then Inf false
  else Finite (value m e).

Definition neg (f : fval) : fval :=
  match f with
  | Finite q => Finite (- q)
  | Inf negative => Inf (negb negative)
  end.

(** The double nearest to [q]. *)
Definition round (q : Q) : fval :=
  if (Qnum q =? 0)%Z then Finite 0
  else if (Qnum q <? 0)%Z then neg (round_pos (- Qnum q) (Z.pos (Qden q)))
  else round_pos (Qnum q) (Z.pos (Qden q)).

(** [a - b] on floats. *)
Definition sub (a b : Q) : fval := round (a - b).

(** [f >= n] for a float [f] and an [int] [n]: the two are compared
    exactly. *)
Definition ge_int (f : fval) (n : Z) : bool :=
  match f with
  | Finite q => Qle_bool (inject_Z n) q
  | Inf negative => negb negative
  end.

(** The float a decimal literal is read as. *)
Definition literal (q : Q) : Q :=
  match round q with
  | Finite v => v
  | Inf _ => 0
  end.

End PyFloat.

(** ** Segments *)

(** One element of [result["segments"]]: [seg["start"]], [seg["end"]],
    [seg["text"]]. *)
Record Segment : Type := mkSegment {
  seg_start : Q;
  seg_end : Q;
  seg_text : string
}.

(** ** [os.path] (POSIX flavour) over the modelled file system *)

Module OsPath.

(** [os.path.join(a, b)] *)
Definition join2 (a b : string) : string :=
  if String.prefix "/" b then b
  else if negb (PyStr.truthy a) || PyStr.endswith a "/" then a +:+ b
  else a +:+ "/" +:+ b.

(** [os.path.join(a, *p)] *)
Definition join (a : string) (p : list string) : string :=
  fold_left join2 p a.

Fixpoint all_dots (s : string) : bool :=
  match s with
  | EmptyString => true
  | String c r => Ascii.eqb c "." && all_dots r
  end.

(** [os.path.splitext(p)]: the extension starts at the last dot of the last
    path component, leading dots of that component apart. *)
Definition splitext (p : string) : string * string :=
  let sepIndex := PyStr.rfind "/" p in
  let dotIndex := PyStr.rfind "." p in
  if (sepIndex <? dotIndex)%Z
     && negb (all_dots (String.substring (Z.to_nat (sepIndex + 1))
                          (Z.to_nat (dotIndex - (sepIndex + 1))) p))
  then (String.substring 0 (Z.to_nat dotIndex) p,
        String.substring (Z.to_nat dotIndex)
          (String.length p - Z.to_nat dotIndex) p)
  else (p, EmptyString).

(** Paths are looked up in [fs] as the program spells them. *)
Definition exists_ (p : string) : M bool := fun w =>
  (Ok (bool_decide (is_Some (fs w !! p))), w).

Definition isfile (p : string) : M bool := fun w =>
  (Ok (bool_decide (fs w !! p = Some File)), w).

Definition isdir (p : string) : M bool := fun w =>
  (Ok (bool_decide (fs w !! p = Some Dir)), w).

(** [p] is [d] or lies below it. *)
Definition under (d p : string) : bool :=
  String.eqb p d || String.prefix (d +:+ "/") p.

End OsPath.

(** [shutil.rmtree(d, ignore_errors=True)]: every entry at or below [d] is
    removed; the call does not raise. *)
Definition rmtree_ignore_errors (d : string) : M unit := fun w =>
  (Ok tt,
   mkWorld (filter (fun kv => OsPath.under d kv.1 = false) (fs w)) (stdout w)).

(** ** What the program calls and does not define

    The speech model, the transcoder process, the document libraries, the
    command-line parser and the operating system's choices. *)

(** The namespace returned by [parser.parse_args()]. *)
Record Args : Type := mkArgs {
  arg_input : string;
  arg_model : string;
  arg_block : Z;
  arg_device : option string;
  arg_format : list string;
  arg_all_formats : bool
}.

Record Ext : Type := mkExt {
  (** [torch.cuda.is_available()] *)
  cuda_is_available : bool;
  (** [subprocess.run(command, stdout=PIPE, stderr=PIPE)] *)
  subprocess_run : list string -> M unit;
  (** [whisper.load_model(model_name, device=device)] *)
  load_model : string -> string -> M unit;
  (** [model.transcribe(audio_path, verbose=False)["segments"]] for the model
      loaded under that name on that device *)
  model_transcribe : string -> string -> string -> M (list Segment);
  (** the [docx] calls of [save_to_docx]: blocks, output path *)
  docx_save : list string -> string -> M unit;
  (** [open(output_path, "w")] and the writes: content, output path *)
  write_text : string -> string -> M unit;
  (** the [reportlab] calls of [save_to_pdf]: blocks, output path *)
  pdf_build : list string -> string -> M unit;
  (** the directory [tempfile.mkdtemp(prefix=...)] picks, or its exception *)
  mkdtemp_pick : string -> World -> res string;
  (** [parser.parse_args()] on the command line of this run *)
  parse_args : M Args;
  (** [shutil.which(name)] *)
  which : string -> World -> option string;
  (** [os.walk(top)] as the [(root, files)] of each visited directory *)
  os_walk : string -> World -> list (string * list string);
  (** [os.path.dirname(__file__)] of the package *)
  module_dir : string
}.

(** [tempfile.mkdtemp(prefix=prefix)]: the picked directory is created. *)
Definition mkdtemp (X : Ext) (prefix : string) : M string := fun w =>
  match mkdtemp_pick X prefix w with
  | Ok d => (Ok d, mkWorld (<[d := Dir]> (fs w)) (stdout w))
  | Raise e => (Raise e, w)
  end.

(** ** [whisper_transcriber/core.py] *)

Module Core.

Definition VIDEO_EXTENSIONS : list string :=
  [".mp4"; ".avi"; ".mov"; ".mkv"; ".flv"; ".wmv"].

(** The four loop variables of [transcribe_with_whisper] (line 77). *)
Record LoopState : Type := mkLoop {
  blocks : list string;
  current_text : list string;
  block_start : option Q;
  last_end : option Q
}.

(** [last_end - block_start >= block_seconds] on two floats and an [int]. *)
Definition reached (last_end block_start : Q) (block_seconds : Z) : bool :=
  PyFloat.ge_int (PyFloat.sub last_end block_start) block_seconds.

(** [last_end - block_start >= block_seconds]; subtracting with a [None]
    operand is a [TypeError]. *)
Definition span_reached (last_end block_start : option Q) (block_seconds : Z)
  : res bool :=
  match last_end, block_start with
  | Some e, Some b => Ok (reached e b block_seconds)
  | _, _ => Raise TypeError
  end.

(** [f"[{block_start:.2f} - {last_end:.2f}] {' '.join(current_text)}"] *)
Definition format_block (block_start last_end : option Q)
    (current_text : list string) : res string :=
  b ← PyStr.format_2f_opt block_start;
  e ← PyStr.format_2f_opt last_end;
  Ok ("[" +:+ b +:+ " - " +:+ e +:+ "] " +:+ PyStr.join " " current_text).

(** One iteration of the [for seg in result["segments"]] loop (lines 79-86). *)
Definition loop_body (block_seconds : Z) (st : LoopState) (seg : Segment)
  : res LoopState :=
  let start := seg_start seg in
  let end_ := seg_end seg in
  let text := PyStr.strip (seg_text seg) in
  let block_start :=
    match block_start st with
    | None => Some start
    | Some b => Some b
    end in
  let current_text := current_text st ++ [text] in
  let last_end := Some end_ in
  reached ← span_reached last_end block_start block_seconds;
  if reached : bool then
    blk ← format_block block_start last_end current_text;
    Ok (mkLoop (blocks st ++ [blk]) [] None last_end)
  else
    Ok (mkLoop (blocks st) current_text block_start last_end).

Fixpoint loop (block_seconds : Z) (st : LoopState) (segments : list Segment)
  : res LoopState :=
  match segments with
  | [] => Ok st
  | seg :: rest =>
      st' ← loop_body block_seconds st seg;
      loop block_seconds st' rest
  end.

(** The trailing [if current_text:] flush (lines 87-88). *)
Definition flush (st : LoopState) : res (list string) :=
  match current_text st with
  | [] => Ok (blocks st)
  | _ :: _ =>
      blk ← format_block (block_start st) (last_end st) (current_text st);
      Ok (blocks st ++ [blk])
  end.

(** Lines 77-88 of [transcribe_with_whisper]: the grouping of the segments
    into formatted blocks. *)
Definition group_blocks (segments : list Segment) (block_seconds : Z)
  : res (list string) :=
  st ← loop block_seconds (mkLoop [] [] None None) segments;
  flush st.

(** [device_preference == s] for a preference that may be [None]. *)
Definition pref_is (device_preference : option string) (s : string) : bool :=
  match device_preference with
  | Some p => String.eqb p s
  | None => false
  end.

(** [get_device] (lines 38-50). *)
Definition get_device (X : Ext) (device_preference : option string)
  : M string :=
  if pref_is device_preference "cuda" && cuda_is_available X then
    print "[INFO] Using CUDA (GPU)" ;;
    mret "cuda"
  else if pref_is device_preference "cpu" then
    print "[INFO] Using CPU (forced)" ;;
    mret "cpu"
  else
    let device := if cuda_is_available X then "cuda" else "cpu" in
    print ("[INFO] Auto-detected device: " +:+ PyStr.upper device) ;;
    mret device.

(** [extract_audio] (lines 53-64). *)
Definition extract_audio (X : Ext) (video_path audio_path ffmpeg_path : string)
  : M string :=
  print ("[INFO] Extracting audio from: " +:+ video_path) ;;
  let command :=
    [ffmpeg_path; "-y"; "-i"; video_path;
     "-ar"; "16000"; "-ac"; "1"; audio_path] in
  subprocess_run X command ;;
  print ("[INFO] Audio saved to: " +:+ audio_path) ;;
  mret audio_path.

(** [transcribe_with_whisper] (lines 67-91). *)
Definition transcribe_with_whisper (X : Ext)
    (audio_path model_name device : string) (block_seconds : Z)
  : M (list string) :=
  print ("[INFO] Loading Whisper model: " +:+ model_name +:+ " on "
         +:+ PyStr.upper device) ;;
  load_model X model_name device ;;
  print "[INFO] Starting transcription..." ;;
  segments ← model_transcribe X model_name device audio_path;
  blocks ← lift_res (group_blocks segments block_seconds);
  print ("[INFO] Transcription complete. Total blocks: "
         +:+ PyStr.str_of_N (N.of_nat (length blocks))) ;;
  mret blocks.

(** [save_to_docx] (lines 94-103). *)
Definition save_to_docx (X : Ext) (blocks : list string) (output_path : string)
  : M unit :=
  print ("[INFO] Saving DOCX to: " +:+ output_path) ;;
  docx_save X blocks output_path.

(** [save_to_txt] (lines 106-114). *)
Definition save_to_txt (X : Ext) (blocks : list string) (output_path : string)
  : M unit :=
  print ("[INFO] Saving TXT to: " +:+ output_path) ;;
  write_text X
    (fold_left (fun acc block => acc +:+ block +:+ PyStr.nl) blocks
       ("Video Transcription" +:+ PyStr.nl +:+ PyStr.nl))
    output_path.

(** [save_to_pdf] (lines 117-133). *)
Definition save_to_pdf (X : Ext) (blocks : list string) (output_path : string)
  : M unit :=
  print ("[INFO] Saving PDF to: " +:+ output_path) ;;
  pdf_build X blocks output_path ;;
  print ("[INFO] PDF saved: " +:+ output_path).

(** The body of the [for fmt in formats] loop (lines 149-154). *)
Definition save_as (X : Ext) (blocks : list string) (base_path fmt : string)
  : M unit :=
  if String.eqb fmt "docx" then save_to_docx X blocks (base_path +:+ ".docx")
  else if String.eqb fmt "txt" then save_to_txt X blocks (base_path +:+ ".txt")
  else if String.eqb fmt "pdf" then save_to_pdf X blocks (base_path +:+ ".pdf")
  else mret tt.

(** The [try] suite of [process_video] (lines 144-156). *)
Definition pipeline (X : Ext) (video_path model_name device : string)
    (block_seconds : Z) (formats : list string)
    (ffmpeg_path audio_file : string) : M unit :=
  extract_audio X video_path audio_file ffmpeg_path ;;
  blocks ← transcribe_with_whisper X audio_file model_name device
             block_seconds;
  let base_path := (OsPath.splitext video_path).1 in
  for_each formats (save_as X blocks base_path) ;;
  print ("[INFO] Finished processing: " +:+ video_path).

(** [process_video] (lines 136-158). *)
Definition process_video (X : Ext) (video_path model_name device : string)
    (block_seconds : Z) (formats : list string) (ffmpeg_path : string)
  : M unit :=
  print (PyStr.nl +:+ "=== Processing video: " +:+ video_path +:+ " ===") ;;
  temp_dir ← mkdtemp X "whisper_audio_";
  let audio_file := OsPath.join temp_dir ["temp_audio.wav"] in
  try_finally
    (pipeline X video_path model_name device block_seconds formats
       ffmpeg_path audio_file)
    (rmtree_ignore_errors temp_dir).

End Core.

(** ** [whisper_transcriber/cli.py] *)

Module Cli.

Definition shutil_which (X : Ext) (name : string) : M (option string) :=
  fun w => (Ok (which X name w), w).

Definition walk (X : Ext) (top : string) : M (list (string * list string)) :=
  fun w => (Ok (os_walk X top w), w).

(** [bool(v)] for a string that may be [None]. *)
Definition truthy_opt (v : option string) : bool :=
  match v with
  | Some s => PyStr.truthy s
  | None => false
  end.

(** [get_ffmpeg_path] (lines 7-15); [sys.exit(1)] raises [SystemExit(1)]. *)
Definition get_ffmpeg_path (X : Ext) : M string :=
  system_ffmpeg ← shutil_which X "ffmpeg";
  if truthy_opt system_ffmpeg then mret (default EmptyString system_ffmpeg)
  else
    let local_ffmpeg :=
      OsPath.join (module_dir X) [".."; "ffmpeg"; "bin"; "ffmpeg.exe"] in
    found ← OsPath.exists_ local_ffmpeg;
    if found : bool then mret local_ffmpeg
    else
      print "[ERROR] ffmpeg not found! Install globally or place in ./ffmpeg/bin/" ;;
      raise (SystemExit 1).

(** [f.lower().endswith(VIDEO_EXTENSIONS)] *)
Definition is_video (f : string) : bool :=
  PyStr.endswith_any (PyStr.lower f) Core.VIDEO_EXTENSIONS.

(** The [videos] list built by the nested loops of lines 35-39. *)
Definition collect_videos (walked : list (string * list string))
  : list string :=
  flat_map
    (fun rf => map (fun f => OsPath.join rf.1 [f]) (filter is_video rf.2))
    walked.

(** [main] (lines 18-47). *)
Definition main (X : Ext) : M unit :=
  args ← parse_args X;
  device ← Core.get_device X (arg_device args);
  ffmpeg_path ← get_ffmpeg_path X;
  let formats :=
    if arg_all_formats args then ["docx"; "txt"; "pdf"]
    else arg_format args in
  is_file ← OsPath.isfile (arg_input args);
  if (is_file : bool) && is_video (arg_input args) then
    Core.process_video X (arg_input args) (arg_model args) device
      (arg_block args) formats ffmpeg_path
  else
    is_dir ← OsPath.isdir (arg_input args);
    if is_dir : bool then
      walked ← walk X (arg_input args);
      let videos := collect_videos walked in
      match videos with
      | [] => print "No video files found in the folder."
      | _ :: _ =>
          print ("Found " +:+ PyStr.str_of_N (N.of_nat (length videos))
                 +:+ " video file(s).") ;;
          for_each videos (fun v =>
            Core.process_video X v (arg_model args) device
              (arg_block args) formats ffmpeg_path)
      end
    else
      print "Error: provide a path to a video file or folder containing videos.".

End Cli.

(** ** The grouping loop of [main.py] (lines 80-106) *)

Module MainPy.

Record LoopState : Type := mkLoop {
  blocks : list string;
  current_text : list string;
  block_start : option Q;
  last_end : option Q
}.

(** [f"[{block_start:.2f} - {last_end:.2f}] {block_text}"] *)
Definition format_line (block_start last_end : option Q) (block_text : string)
  : res string :=
  b ← PyStr.format_2f_opt block_start;
  e ← PyStr.format_2f_opt last_end;
  Ok ("[" +:+ b +:+ " - " +:+ e +:+ "] " +:+ block_text).

(** One iteration of the loop (lines 86-100). *)
Definition loop_body (block_seconds : Z) (st : LoopState) (seg : Segment)
  : res LoopState :=
  let start := seg_start seg in
  let end_ := seg_end seg in
  let text := PyStr.strip (seg_text seg) in
  let block_start :=
    match block_start st with
    | None => Some start
    | Some b => Some b
    end in
  let current_text := current_text st ++ [text] in
  let last_end := Some end_ in
  reached ← Core.span_reached last_end block_start block_seconds;
  if reached : bool then
    let block_text := PyStr.join " " current_text in
    line ← format_line block_start last_end block_text;
    Ok (mkLoop (blocks st ++ [line]) [] None last_end)
  else
    Ok (mkLoop (blocks st) current_text block_start last_end).

Fixpoint loop (block_seconds : Z) (st : LoopState) (segments : list Segment)
  : res LoopState :=
  match segments with
  | [] => Ok st
  | seg :: rest =>
      st' ← loop_body block_seconds st seg;
      loop block_seconds st' rest
  end.

(** The trailing flush (lines 102-104). *)
Definition flush (st : LoopState) : res (list string) :=
  match current_text st with
  | [] => Ok (blocks st)
  | _ :: _ =>
      let block_text := PyStr.join " " (current_text st) in
      line ← format_line (block_start st) (last_end st) block_text;
      Ok (blocks st ++ [line])
  end.

(** Lines 80-106 of [main.py]'s [transcribe_with_whisper]. *)
Definition group_blocks (segments : list Segment) (block_seconds : Z)
  : res (list string) :=
  st ← loop block_seconds (mkLoop [] [] None None) segments;
  flush st.

(** The loop variables of [main.py] read as those of [core.py]. *)
Definition to_core (st : LoopState) : Core.LoopState :=
  Core.mkLoop (blocks st) (current_text st) (block_start st) (last_end st).

End MainPy.

(** ** Blocks before formatting

    The loop of [transcribe_with_whisper] keeps, between two emitted blocks,
    the run of segments read since the last one.  [runs] is the same loop
    with that run kept as segments; [Core.group_blocks] is proved below to
    return the rendering of these runs. *)

Module Grouping.

(** [seg["text"].strip()] *)
Definition stripped (s : Segment) : string := PyStr.strip (seg_text s).

(** [block_start] of a run: the start of its first segment. *)
Definition run_start (run : list Segment) : Q :=
  match run with
  | [] => 0%Q
  | s :: _ => seg_start s
  end.

(** [last_end] of a run: the end of its last segment. *)
Definition run_end (run : list Segment) : Q :=
  match last run with
  | Some s => seg_end s
  | None => 0%Q
  end.

(** The exact length of a run, from its start to its end. *)
Definition run_span (run : list Segment) : Q := (run_end run - run_start run)%Q.

(** The loop's test on a run: [last_end - block_start >= block_seconds] as
    the program computes it. *)
Definition run_reached (block_seconds : Z) (run : list Segment) : bool :=
  Core.reached (run_end run) (run_start run) block_seconds.

(** The text part of a block: [' '.join(current_text)]. *)
Definition run_text (run : list Segment) : string :=
  PyStr.join " " (map stripped run).

(** The block string of a run. *)
Definition render_run (run : list Segment) : string :=
  "[" +:+ PyStr.format_2f (run_start run) +:+ " - "
  +:+ PyStr.format_2f (run_end run) +:+ "] " +:+ run_text run.

Fixpoint runs_from (block_seconds : Z) (run segments : list Segment)
  : list (list Segment) :=
  match segments with
  | [] =>
      match run with
      | [] => []
      | _ :: _ => [run]
      end
  | seg :: rest =>
      let run' := run ++ [seg] in
      if Core.reached (seg_end seg) (run_start run') block_seconds
      then run' :: runs_from block_seconds [] rest
      else runs_from block_seconds run' rest
  end.

Definition runs (segments : list Segment) (block_seconds : Z)
  : list (list Segment) :=
  runs_from block_seconds [] segments.

(** The time stamps of a segment list, in order: start, end, start, ... *)
Definition times (segments : list Segment) : list Q :=
  flat_map (fun s => [seg_start s; seg_end s]) segments.

(** The time boundaries of a block list, in order: start, end, start, ... *)
Definition boundaries (rs : list (list Segment)) : list Q :=
  flat_map (fun r => [run_start r; run_end r]) rs.

Fixpoint nondecreasing (l : list Q) : Prop :=
  match l with
  | [] => True
  | x :: rest =>
      match rest with
      | [] => True
      | y :: _ => (x <= y)%Q /\ nondecreasing rest
      end
  end.

(** Segments in time order: each ends no earlier than it starts and no later
    than the next one starts. *)
Fixpoint time_ordered (segments : list Segment) : Prop :=
  match segments with
  | [] => True
  | s :: rest =>
      (seg_start s <= seg_end s)%Q /\
      match rest with
      | [] => True
      | s' :: _ => (seg_end s <= seg_start s')%Q /\ time_ordered rest
      end
  end.

(** No non-empty prefix of the run reaches the threshold: read segment by
    segment, the run has not been closed yet. *)
Definition below (block_seconds : Z) (run : list Segment) : Prop :=
  forall p, p <> [] -> p `prefix_of` run ->
    run_reached block_seconds p = false.


(** The loop variables hold the run read since the last emitted block. *)
Definition tracks (st : Core.LoopState) (run : list Segment) : Prop :=
  Core.current_text st = map stripped run /\
  Core.block_start st = seg_start <$> head run /\
  (run <> [] -> Core.last_end st = Some (run_end run)).

End Grouping.

(** ** Where the transcoder is looked for *)

Definition local_ffmpeg (X : Ext) : string :=
  OsPath.join (module_dir X) [".."; "ffmpeg"; "bin"; "ffmpeg.exe"].

(** [ffmpeg] is on the system path or the bundled binary exists. *)
Definition ffmpeg_located (X : Ext) (w : World) : bool :=
  Cli.truthy_opt (which X "ffmpeg" w)
  || bool_decide (is_Some (fs w !! local_ffmpeg X)).

(** [formats] of [main] (line 30). *)
Definition formats_of (args : Args) : list string :=
  if arg_all_formats args then ["docx"; "txt"; "pdf"] else arg_format args.

(** ** The jobs of a run *)

(** Every call that [for x in l: body(x)] makes from [w] returns: the
    first one in [w], each later one in the world the one before left. *)
Fixpoint calls_return {A} (body : A -> M unit) (l : list A) (w : World)
  : Prop :=
  match l with
  | [] => True
  | x :: rest =>
      exists w', body x w = (Ok tt, w') /\ calls_return body rest w'
  end.

(** The videos [main] hands to [process_video], in order (lines 32-45). *)
Definition jobs (X : Ext) (args : Args) (w : World) : list string :=
  if bool_decide (fs w !! arg_input args = Some File)
     && Cli.is_video (arg_input args)
  then [arg_input args]
  else if bool_decide (fs w !! arg_input args = Some Dir)
  then Cli.collect_videos (os_walk X (arg_input args) w)
  else [].

(** The world in which the first of them starts: for a folder, after the
    line that tells how many videos were found. *)
Definition jobs_world (X : Ext) (args : Args) (w : World) : World :=
  if bool_decide (fs w !! arg_input args = Some File)
     && Cli.is_video (arg_input args)
  then w
  else if bool_decide (fs w !! arg_input args = Some Dir)
  then
    match Cli.collect_videos (os_walk X (arg_input args) w) with
    | [] => w
    | v :: vs =>
        mkWorld (fs w)
          (stdout w ++
           ["Found " +:+ PyStr.str_of_N (N.of_nat (length (v :: vs)))
            +:+ " video file(s)."])
    end
  else w.

(** ** Segments for the examples *)

(** A segment with whole seconds as time stamps. *)
Definition seg_of_Z (s e : Z) (t : string) : Segment :=
  mkSegment (inject_Z s) (inject_Z e) t.

(** The segments of the specification's example. *)
Definition example_segments : list Segment :=
  [seg_of_Z 0 30 "a"; seg_of_Z 31 65 "b"; seg_of_Z 66 70 "c"].

(** The same segments with the leading space the speech model puts before
    each text. *)
Definition spaced_segments : list Segment :=
  [seg_of_Z 0 30 " a"; seg_of_Z 31 65 " b"; seg_of_Z 66 70 " c"].

(** The first segment runs from the float 0.3 to the float 60.3. *)
Definition rounding_segments : list Segment :=
  [mkSegment (PyFloat.literal (3 # 10)) (PyFloat.literal (603 # 10)) "a";
   seg_of_Z 61 62 "b"].

(** Two segments out of time order. *)
Definition unordered_segments : list Segment :=
  [seg_of_Z 10 20 "a"; seg_of_Z 0 5 "b"].

(** Two segments that overlap in time. *)
Definition overlapping_segments : list Segment :=
  [seg_of_Z 10 20 "a"; seg_of_Z 0 15 "b"].

(** The world in which [process_video] asks for its temporary directory. *)
Definition announced (video_path : string) (w : World) : World :=
  (print (PyStr.nl +:+ "=== Processing video: " +:+ video_path +:+ " ===")
     w).2.

#[global] Instance Qle_transitive : Transitive Qle := Qle_trans.

(** Comparisons of rational constants. *)
Ltac q_closed := unfold Qle, Qlt; simpl; lia.

(** ** A concrete run

    An environment for the examples: the command line parses to [args], the
    speech model answers the specification's segments after [load] (the
    outcome of loading it), the transcoder writes its output file, the
    document libraries do nothing, [ffmpeg] is on the system path, and
    walking a directory finds [walked]. *)

Definition demo_ext (cuda : bool) (args : Args) (load : M unit)
    (walked : list (string * list string)) : Ext :=
  {| cuda_is_available := cuda;
     subprocess_run := fun command w =>
       (Ok tt,
        mkWorld (<[default EmptyString (last command) := File]> (fs w))
          (stdout w));
     load_model := fun _ _ => load;
     model_transcribe := fun _ _ _ => mret example_segments;
     docx_save := fun _ _ => mret tt;
     write_text := fun _ _ => mret tt;
     pdf_build := fun _ _ => mret tt;
     mkdtemp_pick := fun prefix _ => Ok ("/tmp/" +:+ prefix +:+ "k3x9");
     parse_args := mret args;
     which := fun _ _ => Some "/usr/bin/ffmpeg";
     os_walk := fun _ _ => walked;
     module_dir := "/app/whisper_transcriber" |}.

(** Loading the speech model fails. *)
Definition failing_load : M unit := raise (OtherError "RuntimeError").

Definition demo_args (input : string) : Args :=
  mkArgs input "base" 60 None ["docx"] false.

(** A file system with one video and one folder of notes. *)
Definition demo_world : World :=
  mkWorld (<["/data/talk.mp4" := File]>
             (<["/data/notes" := Dir]> (<["/data" := Dir]> ∅))) [].

(** ** The run left open by the loop *)

Module Streaming.

(** The segments read since the last emitted block once [segments] have
    been read: [current_text], as segments, when the loop ends. *)
Fixpoint open_run (block_seconds : Z) (run segments : list Segment)
  : list Segment :=
  match segments with
  | [] => run
  | seg :: rest =>
      let run' := run ++ [seg] in
      if Core.reached (seg_end seg) (Grouping.run_start run') block_seconds
      then open_run block_seconds [] rest
      else open_run block_seconds run' rest
  end.

(** The blocks emitted inside the loop, before the trailing flush. *)
Fixpoint closed_runs (block_seconds : Z) (run segments : list Segment)
  : list (list Segment) :=
  match segments with
  | [] => []
  | seg :: rest =>
      let run' := run ++ [seg] in
      if Core.reached (seg_end seg) (Grouping.run_start run') block_seconds
      then run' :: closed_runs block_seconds [] rest
      else closed_runs block_seconds run' rest
  end.

End Streaming.

(** ** Font registration ([whisper_transcriber/core.py], lines 15-35) *)

Module Font.

(** [isinstance(e, Exception)]: [SystemExit] derives from [BaseException]
    only. *)
Definition is_Exception (e : exn) : bool :=
  match e with
  | SystemExit _ => false
  | _ => true
  end.

(** [try: body except Exception as e: handler(e)] *)
Definition try_except_Exception {A} (body : M A) (handler : exn -> M A)
  : M A := fun w =>
  match body w with
  | (Ok a, w') => (Ok a, w')
  | (Raise e, w') =>
      if is_Exception e then handler e w' else (Raise e, w')
  end.

Definition FONT_PATH (X : Ext) : string :=
  OsPath.join (module_dir X) [".."; "fonts"; "DejaVuSans.ttf"].

(** [register_font] (lines 19-32).  [registerFont name path] stands for
    [pdfmetrics.registerFont(TTFont(name, path))], [describe e] for
    [str(e)]; the value returned is the global [PDF_FONT] after the call,
    [PDF_FONT] being its value before. *)
Definition register_font (X : Ext) (registerFont : string -> string -> M unit)
    (describe : exn -> string) (PDF_FONT : string) : M string :=
  found ← OsPath.exists_ (FONT_PATH X);
  if found : bool then
    try_except_Exception
      (registerFont "DejaVuSans" (FONT_PATH X) ;;
       print ("[INFO] Registered font: DejaVuSans (" +:+ FONT_PATH X +:+ ")") ;;
       mret "DejaVuSans")
      (fun e =>
         print ("[WARNING] Failed to register DejaVuSans, fallback to Helvetica: "
                +:+ describe e) ;;
         mret PDF_FONT)
  else
    print ("[WARNING] Font not found at " +:+ FONT_PATH X
           +:+ ", fallback to Helvetica") ;;
    mret PDF_FONT.

End Font.

(** ** The functions of [main.py] around its grouping loop

    [DEVICE] and [FFMPEG_PATH] are the globals the script sets before it
    calls these functions; [gpu_name] is [torch.cuda.get_device_name(0)]. *)

Module MainScript.

(** [bool(device_preference)] *)
Definition pref_given (device_preference : option string) : bool :=
  Cli.truthy_opt device_preference.

(** [device_preference.lower() == s] *)
Definition pref_lower_is (device_preference : option string) (s : string)
  : bool :=
  match device_preference with
  | Some p => String.eqb (PyStr.lower p) s
  | None => false
  end.

(** [get_device] ([main.py], lines 21-44). *)
Definition get_device (X : Ext) (gpu_name : string)
    (device_preference : option string) : M string :=
  let auto : M string :=
    if cuda_is_available X then
      print ("[INFO] Using GPU: " +:+ gpu_name) ;;
      mret "cuda"
    else
      print "[INFO] CUDA not found, using CPU" ;;
      mret "cpu" in
  if pref_given device_preference then
    if pref_lower_is device_preference "cuda" && cuda_is_available X then
      print ("[INFO] Using GPU (forced): " +:+ gpu_name) ;;
      mret "cuda"
    else if pref_lower_is device_preference "cpu" then
      print "[INFO] Using CPU (forced)" ;;
      mret "cpu"
    else
      print ("[WARNING] Requested device '"
             +:+ default EmptyString device_preference
             +:+ "' not available. Auto-detecting...") ;;
      auto
  else auto.

(** [get_ffmpeg_path] ([main.py], lines 47-57); [PROJECT_DIR] is the
    directory of the script. *)
Definition get_ffmpeg_path (X : Ext) (PROJECT_DIR : string) : M string :=
  system_ffmpeg ← Cli.shutil_which X "ffmpeg";
  if Cli.truthy_opt system_ffmpeg then
    print ("[INFO] Using system ffmpeg: "
           +:+ default EmptyString system_ffmpeg) ;;
    mret (default EmptyString system_ffmpeg)
  else
    let local_ffmpeg :=
      OsPath.join PROJECT_DIR ["ffmpeg"; "bin"; "ffmpeg.exe"] in
    found ← OsPath.exists_ local_ffmpeg;
    if found : bool then
      print ("[WARNING] System ffmpeg not found, using local: "
             +:+ local_ffmpeg) ;;
      mret local_ffmpeg
    else
      print "[ERROR] ffmpeg not found! Install globally or place in ./ffmpeg/bin/" ;;
      raise (SystemExit 1).

(** [extract_audio] ([main.py], lines 60-70). *)
Definition extract_audio (X : Ext) (FFMPEG_PATH video_path audio_path : string)
  : M string :=
  let command :=
    [FFMPEG_PATH; "-y"; "-i"; video_path;
     "-ar"; "16000"; "-ac"; "1"; audio_path] in
  subprocess_run X command ;;
  mret audio_path.

(** [transcribe_with_whisper] ([main.py], lines 73-106). *)
Definition transcribe_with_whisper (X : Ext) (DEVICE : string)
    (audio_path model_name : string) (block_seconds : Z) : M (list string) :=
  print ("Loading model '" +:+ model_name +:+ "' on " +:+ DEVICE +:+ "...") ;;
  load_model X model_name DEVICE ;;
  print "Starting transcription..." ;;
  segments ← model_transcribe X model_name DEVICE audio_path;
  lift_res (MainPy.group_blocks segments block_seconds).

(** [save_to_docx] ([main.py], lines 109-114). *)
Definition save_to_docx (X : Ext) (blocks : list string) (output_path : string)
  : M unit :=
  docx_save X blocks output_path.

(** The [try] suite of [process_video] ([main.py], lines 123-132). *)
Definition pipeline (X : Ext) (DEVICE FFMPEG_PATH : string)
    (video_path model_name : string) (block_seconds : Z)
    (audio_file docx_path : string) : M unit :=
  print "Extracting audio..." ;;
  extract_audio X FFMPEG_PATH video_path audio_file ;;
  print "Transcribing..." ;;
  blocks ← transcribe_with_whisper X DEVICE audio_file model_name
             block_seconds;
  print "Saving to DOCX..." ;;
  save_to_docx X blocks docx_path ;;
  print ("Done! Saved result to " +:+ docx_path).

(** [process_video] ([main.py], lines 117-134). *)
Definition process_video (X : Ext) (DEVICE FFMPEG_PATH : string)
    (video_path model_name : string) (block_seconds : Z) : M unit :=
  print (PyStr.nl +:+ "=== Processing: " +:+ video_path +:+ " ===") ;;
  temp_dir ← mkdtemp X "whisper_audio_";
  let audio_file := OsPath.join temp_dir ["temp_audio.wav"] in
  let docx_path := (OsPath.splitext video_path).1 +:+ ".docx" in
  try_finally
    (pipeline X DEVICE FFMPEG_PATH video_path model_name block_seconds
       audio_file docx_path)
    (rmtree_ignore_errors temp_dir).

(** The world in which [process_video] asks for its temporary directory. *)
Definition announced (video_path : string) (w : World) : World :=
  (print (PyStr.nl +:+ "=== Processing: " +:+ video_path +:+ " ===") w).2.

End MainScript.

(** ** Vocabulary of the further properties *)

(** A character occurs in a string. *)
Fixpoint occurs (c : ascii) (s : string) : bool :=
  match s with
  | EmptyString => false
  | String x r => Ascii.eqb x c || occurs c r
  end.

(** [os.path.basename(p)]: what follows the last slash. *)
Definition basename (p : string) : string :=
  let i := Z.to_nat (PyStr.rfind "/" p + 1) in
  String.substring i (String.length p - i) p.

(** The formats [process_video] exports. *)
Definition known_format (fmt : string) : bool :=
  String.eqb fmt "docx" || String.eqb fmt "txt" || String.eqb fmt "pdf".

(** The world with one more printed line. *)
Definition printed (line : string) (w : World) : World :=
  mkWorld (fs w) (stdout w ++ [line]).

(** * Properties *)

(** ** The Python primitives on examples *)

Example strip_spaces : PyStr.strip "  a b " = "a b".
Proof. reflexivity. Qed.

Example strip_only_spaces : PyStr.strip "   " = "".
Proof. reflexivity. Qed.

Example join_words : PyStr.join " " ["a"; "b"; "c"] = "a b c".
Proof. reflexivity. Qed.

Example format_int : PyStr.format_2f (inject_Z 65) = "65.00".
Proof. reflexivity. Qed.

Example format_tie_even : PyStr.format_2f (1 # 8) = "0.12".
Proof. reflexivity. Qed.

Example format_tie_odd : PyStr.format_2f (3 # 8) = "0.38".
Proof. reflexivity. Qed.

Example format_carry : PyStr.format_2f (1999 # 1000) = "2.00".
Proof. reflexivity. Qed.

Example format_negative : PyStr.format_2f (- 5 # 2) = "-2.50".
Proof. reflexivity. Qed.

Example format_none : PyStr.format_2f_opt None = Raise TypeError.
Proof. reflexivity. Qed.

Example float_literal :
  Qeq_bool (PyFloat.literal (3 # 10)) (5404319552844595 # 18014398509481984) = true.
Proof. vm_compute. reflexivity. Qed.

(** [0.3 - 0.1] is [0.19999999999999998]. *)
Example float_sub_rounds :
  match PyFloat.sub (PyFloat.literal (3 # 10)) (PyFloat.literal (1 # 10)) with
  | PyFloat.Finite v => Qeq_bool v (7205759403792793 # 36028797018963968)
  | PyFloat.Inf _ => false
  end = true.
Proof. vm_compute. reflexivity. Qed.

(** [60.3 - 0.3 >= 60] although the two floats are less than 60 apart. *)
Example float_sub_reaches :
  Core.reached (PyFloat.literal (603 # 10)) (PyFloat.literal (3 # 10)) 60
  = true.
Proof. vm_compute. reflexivity. Qed.

(** Integers of moderate size subtract exactly. *)
Example float_sub_exact :
  match PyFloat.sub (inject_Z 65) (inject_Z 0) with
  | PyFloat.Finite v => Qeq_bool v (inject_Z 65)
  | PyFloat.Inf _ => false
  end = true.
Proof. vm_compute. reflexivity. Qed.

(** Half the smallest subnormal is a tie and rounds to zero; anything
    from [2 ^ 1024 - 2 ^ 970] on rounds to infinity. *)
Example float_round_underflow :
  PyFloat.round (1 # Pos.pow 2 1075) = PyFloat.Finite (0 # Pos.pow 2 1074).
Proof. vm_compute. reflexivity. Qed.

Example float_round_overflow :
  PyFloat.round (inject_Z (2 ^ 1024 - 2 ^ 970)) = PyFloat.Inf false /\
  PyFloat.ge_int (PyFloat.round (inject_Z (2 ^ 1024 - 2 ^ 970))) (10 ^ 400)
  = true.
Proof. vm_compute. split; reflexivity. Qed.

Example splitext_video :
  OsPath.splitext "/data/my.talk.MP4" = ("/data/my.talk", ".MP4").
Proof. reflexivity. Qed.

Example splitext_hidden : OsPath.splitext "/data.d/.profile" = ("/data.d/.profile", "").
Proof. reflexivity. Qed.

Example join_temp :
  OsPath.join "/tmp/whisper_audio_k3x9" ["temp_audio.wav"]
  = "/tmp/whisper_audio_k3x9/temp_audio.wav".
Proof. reflexivity. Qed.

Example is_video_upper : Cli.is_video "Talk.MKV" = true.
Proof. reflexivity. Qed.

Example is_video_text : Cli.is_video "talk.mp4.txt" = false.
Proof. reflexivity. Qed.

Example collect_videos_nested :
  Cli.collect_videos
    [("/data", ["a.mp4"; "b.txt"]); ("/data/sub", ["c.AVI"])]
  = ["/data/a.mp4"; "/data/sub/c.AVI"].
Proof. reflexivity. Qed.

Import Grouping.

Section GroupingFacts.

Variable block_seconds : Z.

Lemma run_start_snoc run seg :
  run_start (run ++ [seg]) = default (seg_start seg) (seg_start <$> head run).
Proof. destruct run; reflexivity. Qed.

Lemma run_end_snoc run seg : run_end (run ++ [seg]) = seg_end seg.
Proof. unfold run_end. rewrite last_snoc. reflexivity. Qed.

Lemma tracks_nil bs e : tracks (Core.mkLoop bs [] None e) [].
Proof. repeat split; done. Qed.

Lemma render_run_format run :
  Core.format_block (Some (run_start run)) (Some (run_end run))
    (map stripped run) = Ok (render_run run).
Proof. reflexivity. Qed.

(** One iteration, seen on the run: the segment joins the run, and the run
    is emitted and emptied when its span has reached the threshold. *)
Lemma loop_body_tracks st run seg :
  tracks st run ->
  Core.loop_body block_seconds st seg =
    Ok (if Core.reached (seg_end seg) (run_start (run ++ [seg])) block_seconds
        then Core.mkLoop (Core.blocks st ++ [render_run (run ++ [seg])]) []
               None (Some (seg_end seg))
        else Core.mkLoop (Core.blocks st) (map stripped (run ++ [seg]))
               (Some (run_start (run ++ [seg]))) (Some (seg_end seg))).
Proof.
  intros (Htext & Hstart & _).
  unfold Core.loop_body. rewrite Hstart, Htext, run_start_snoc.
  assert (Hb : match seg_start <$> head run with
               | Some b => Some b
               | None => Some (seg_start seg)
               end = Some (default (seg_start seg) (seg_start <$> head run)))
    by (destruct (head run); reflexivity).
  rewrite Hb. cbn [Core.span_reached mbind res_bind].
  destruct (Core.reached _ _ _); [|by rewrite map_app].
  rewrite <- run_start_snoc.
  change [PyStr.strip (seg_text seg)] with (map stripped [seg]).
  rewrite <- map_app, <- (run_end_snoc run seg).
  rewrite render_run_format.
  rewrite run_end_snoc. reflexivity.
Qed.

(** The loop and the flush return the rendering of the runs. *)
Lemma loop_flush_runs segments : forall st run,
  tracks st run ->
  exists st',
    Core.loop block_seconds st segments = Ok st' /\
    (exists run', tracks st' run') /\
    Core.flush st' =
      Ok (Core.blocks st ++ map render_run (runs_from block_seconds run segments)).
Proof.
  induction segments as [|seg rest IH]; intros st run Htr.
  - exists st. split; [reflexivity|]. split; [by exists run|].
    destruct Htr as (Htext & Hstart & Hend). unfold Core.flush.
    rewrite Htext. destruct run as [|s0 run]; cbn [map runs_from].
    + by rewrite app_nil_r.
    + rewrite Hstart, Hend by done.
      change (seg_start <$> head (s0 :: run)) with (Some (run_start (s0 :: run))).
      change (stripped s0 :: map stripped run) with (map stripped (s0 :: run)).
      rewrite render_run_format. reflexivity.
  - cbn [Core.loop runs_from]. rewrite (loop_body_tracks st run seg Htr).
    cbn [mbind res_bind].
    destruct (Core.reached _ _ _).
    + destruct (IH _ [] (tracks_nil (Core.blocks st ++ [render_run (run ++ [seg])])
                           (Some (seg_end seg)))) as (st' & Hloop & Htr' & Hflush).
      exists st'. split; [exact Hloop|]. split; [exact Htr'|].
      rewrite Hflush. cbn [Core.blocks map]. by rewrite <- app_assoc.
    + destruct (IH (Core.mkLoop (Core.blocks st) (map stripped (run ++ [seg]))
                      (Some (run_start (run ++ [seg]))) (Some (seg_end seg)))
                   (run ++ [seg])) as (st' & Hloop & Htr' & Hflush).
      { split; [reflexivity|]. split.
        - by destruct run.
        - intros _. cbn. by rewrite run_end_snoc. }
      exists st'. split; [exact Hloop|]. split; [exact Htr'|]. exact Hflush.
Qed.

(** [Core.group_blocks] returns the rendering of [runs]. *)
Lemma group_blocks_runs segments :
  Core.group_blocks segments block_seconds =
    Ok (map render_run (runs segments block_seconds)).
Proof.
  unfold Core.group_blocks, runs.
  destruct (loop_flush_runs segments (Core.mkLoop [] [] None None) []
              (tracks_nil [] None)) as (st' & Hloop & _ & Hflush).
  rewrite Hloop. cbn [mbind res_bind]. rewrite Hflush. reflexivity.
Qed.

Lemma below_nil : below block_seconds [].
Proof. intros p Hp Hpre. by apply prefix_nil_inv in Hpre. Qed.

Lemma prefix_snoc_cases {A} (p l : list A) (x : A) :
  p `prefix_of` l ++ [x] -> p `prefix_of` l \/ p = l ++ [x].
Proof.
  revert p. induction l as [|y l IH]; intros p Hp.
  - destruct p as [|z p]; [left; apply prefix_nil|].
    right. destruct Hp as [k Hk]. simplify_eq/=.
    destruct p; [reflexivity|discriminate].
  - destruct p as [|z p]; [left; apply prefix_nil|].
    destruct Hp as [k Hk]. simplify_eq/=.
    destruct (IH p) as [Hl | ->]; [by exists k | |by right].
    left. by apply prefix_cons.
Qed.

Lemma below_snoc run seg :
  below block_seconds run ->
  Core.reached (seg_end seg) (run_start (run ++ [seg])) block_seconds
    = false ->
  below block_seconds (run ++ [seg]).
Proof.
  intros Hrun Hcond p Hp Hpre.
  destruct (prefix_snoc_cases _ _ _ Hpre) as [Hl | ->]; [by apply Hrun|].
  unfold run_reached. by rewrite run_end_snoc.
Qed.


(** The runs, put end to end, are the open run followed by the segments
    read, and no run is empty. *)
Lemma runs_from_concat segments : forall run,
  concat (runs_from block_seconds run segments) = run ++ segments.
Proof.
  induction segments as [|seg rest IH]; intros run; cbn [runs_from].
  - destruct run; [reflexivity|]. cbn. by rewrite !app_nil_r.
  - destruct (Core.reached _ _ _); cbn [concat]; rewrite IH.
    + by rewrite <- app_assoc.
    + by rewrite <- app_assoc.
Qed.

Lemma runs_from_nonempty segments : forall run,
  Forall (fun r => r <> []) (runs_from block_seconds run segments).
Proof.
  induction segments as [|seg rest IH]; intros run; cbn [runs_from].
  - destruct run; repeat constructor. done.
  - destruct (Core.reached _ _ _); [|apply IH].
    constructor; [by destruct run|apply IH].
Qed.

(** Every run that is followed by another one has reached the threshold. *)
Lemma runs_from_span segments : forall run i r,
  runs_from block_seconds run segments !! i = Some r ->
  (S i < length (runs_from block_seconds run segments))%nat ->
  run_reached block_seconds r = true.
Proof.
  induction segments as [|seg rest IH]; intros run i r; cbn [runs_from].
  - destruct run; cbn; intros _ Hlen; lia.
  - destruct (Core.reached _ _ _) eqn:Hcond; [|apply IH].
    destruct i as [|i]; cbn.
    + intros [= <-] _. unfold run_reached. by rewrite run_end_snoc.
    + intros Hr Hlen. apply (IH [] i r Hr). lia.
Qed.

End GroupingFacts.

(** ** Joining strings *)

Lemma string_app_assoc (a b c : string) : (a +:+ b) +:+ c = a +:+ b +:+ c.
Proof.
  induction a as [|x a IH]; [reflexivity|].
  change (String x ((a +:+ b) +:+ c) = String x (a +:+ b +:+ c)).
  by rewrite IH.
Qed.

Lemma string_app_nil_r (s : string) : s +:+ EmptyString = s.
Proof.
  induction s as [|c s IH]; [reflexivity|].
  change (String c (s +:+ EmptyString) = String c s). by rewrite IH.
Qed.

Lemma join_cons2 sep x y l :
  PyStr.join sep (x :: y :: l) = x +:+ sep +:+ PyStr.join sep (y :: l).
Proof. reflexivity. Qed.

Lemma join_app sep l1 l2 :
  l1 <> [] -> l2 <> [] ->
  PyStr.join sep (l1 ++ l2) = PyStr.join sep l1 +:+ sep +:+ PyStr.join sep l2.
Proof.
  intros H1 H2. destruct l1 as [|x l1]; [done|]. clear H1.
  revert x. induction l1 as [|y l1 IH]; intros x.
  - destruct l2 as [|z l2]; [done|]. reflexivity.
  - change ((x :: y :: l1) ++ l2) with (x :: y :: (l1 ++ l2)).
    rewrite !join_cons2. change (y :: l1 ++ l2) with ((y :: l1) ++ l2).
    rewrite IH, !string_app_assoc. reflexivity.
Qed.

(** Joining the joined groups is joining everything, when no group is
    empty. *)
Lemma join_concat {A} sep (f : A -> string) (ls : list (list A)) :
  Forall (fun l => l <> []) ls ->
  PyStr.join sep (map (fun l => PyStr.join sep (map f l)) ls)
  = PyStr.join sep (map f (concat ls)).
Proof.
  induction 1 as [|l ls Hl Hls IH]; [reflexivity|].
  destruct ls as [|l' ls].
  - cbn [concat map]. by rewrite app_nil_r.
  - cbn [map] in *. rewrite join_cons2, IH. cbn [concat].
    rewrite (map_app f l), join_app; [reflexivity| |].
    + by destruct l.
    + inversion Hls; subst. by destruct l'.
Qed.

(** ** Time order *)

Lemma StronglySorted_sublist {A} (R : relation A) (k l : list A) :
  k `sublist_of` l -> StronglySorted R l -> StronglySorted R k.
Proof.
  induction 1 as [|x k l Hsub IH|x k l Hsub IH]; intros Hl.
  - constructor.
  - inversion Hl as [|? ? Hl' Hall]; subst. constructor; [by apply IH|].
    rewrite Forall_forall in Hall |- *. intros y Hy. apply Hall.
    by eapply elem_of_sublist.
  - inversion Hl; subst. by apply IH.
Qed.

Lemma time_ordered_sorted segments :
  time_ordered segments -> Sorted Qle (times segments).
Proof.
  induction segments as [|s rest IH]; [constructor|].
  intros [Hs Hrest]. cbn.
  destruct rest as [|s' rest].
  - repeat constructor. exact Hs.
  - destruct Hrest as [Hnext Hrest].
    constructor; [|constructor; exact Hs].
    constructor; [by apply IH|]. constructor. exact Hnext.
Qed.

Lemma sorted_nondecreasing l : Sorted Qle l -> nondecreasing l.
Proof.
  induction 1 as [|x l Hl IH Hhd]; [exact I|].
  destruct l as [|y l]; [exact I|].
  split; [by inversion Hhd|exact IH].
Qed.

Lemma run_end_sublist run :
  run <> [] -> [run_end run] `sublist_of` times run.
Proof.
  induction run as [|s run IH]; [done|]. intros _.
  destruct run as [|s' run].
  - cbn. apply sublist_cons. reflexivity.
  - change (run_end (s :: s' :: run)) with (run_end (s' :: run)).
    change (times (s :: s' :: run))
      with ([seg_start s; seg_end s] ++ times (s' :: run)).
    apply sublist_inserts_l. by apply IH.
Qed.

Lemma boundaries_sublist rs :
  Forall (fun r => r <> []) rs ->
  boundaries rs `sublist_of` times (concat rs).
Proof.
  induction 1 as [|r rs Hr Hrs IH]; [constructor|].
  cbn [boundaries flat_map concat]. unfold times. rewrite flat_map_app.
  apply sublist_app; [|exact IH].
  destruct r as [|s r]; [done|].
  destruct r as [|s' r]; [reflexivity|].
  change (run_start (s :: s' :: r)) with (seg_start s).
  change (flat_map (fun s0 => [seg_start s0; seg_end s0]) (s :: s' :: r))
    with (seg_start s :: seg_end s :: times (s' :: r)).
  apply sublist_skip, sublist_cons.
  change (run_end (s :: s' :: r)) with (run_end (s' :: r)).
  by apply run_end_sublist.
Qed.

(** The boundaries of any split of a time-ordered segment list into
    non-empty runs are in time order. *)
Lemma boundaries_sorted rs :
  Forall (fun r => r <> []) rs ->
  time_ordered (concat rs) ->
  StronglySorted Qle (boundaries rs).
Proof.
  intros Hne Hord.
  apply (StronglySorted_sublist Qle _ (times (concat rs)));
    [by apply boundaries_sublist|].
  apply Sorted_StronglySorted; [apply _|]. by apply time_ordered_sorted.
Qed.

(** ** The grouping of [transcribe_with_whisper] *)





(** C5: on the segments (0,30,a), (31,65,b), (66,70,c) with threshold 60 the
    grouping returns the two blocks "[0.00 - 65.00] a b" and
    "[66.00 - 70.00] c". *)
Theorem example_two_blocks :
  Core.group_blocks example_segments 60
  = Ok ["[0.00 - 65.00] a b"; "[66.00 - 70.00] c"].
Proof. vm_compute. reflexivity. Qed.

(** C4, as the code has it: for every block but the last one, the
    difference of its end and its start as the program computes it, in
    floating point, is at least the threshold. *)
Theorem blocks_reach_threshold (segments : list Segment) (block_seconds : Z)
    (i : nat) (r : list Segment) :
  runs segments block_seconds !! i = Some r ->
  (S i < length (runs segments block_seconds))%nat ->
  Core.group_blocks segments block_seconds
    = Ok (map render_run (runs segments block_seconds)) /\
  PyFloat.ge_int (PyFloat.sub (run_end r) (run_start r)) block_seconds = true.
Proof.
  intros Hr Hlen. split; [apply group_blocks_runs|].
  exact (runs_from_span block_seconds segments [] i r Hr Hlen).
Qed.

Lemma blocks_reach_threshold_witness :
  Core.group_blocks example_segments 60
    = Ok (map render_run (runs example_segments 60)) /\
  PyFloat.ge_int
    (PyFloat.sub (run_end [seg_of_Z 0 30 "a"; seg_of_Z 31 65 "b"])
       (run_start [seg_of_Z 0 30 "a"; seg_of_Z 31 65 "b"])) 60 = true.
Proof.
  apply (blocks_reach_threshold example_segments 60 0).
  - vm_compute. reflexivity.
  - vm_compute. lia.
Defined.

(** C4 as stated fails by the rounding of the subtraction: the floats 0.3
    and 60.3 are less than 60 apart, their float difference is 60.0, and
    the block from 0.3 to 60.3 is closed at threshold 60 although another
    block follows. *)
Lemma rounded_span_counterexample :
  Core.group_blocks rounding_segments 60
    = Ok ["[0.30 - 60.30] a"; "[61.00 - 62.00] b"] /\
  runs rounding_segments 60
    = [[mkSegment (PyFloat.literal (3 # 10)) (PyFloat.literal (603 # 10)) "a"];
       [seg_of_Z 61 62 "b"]] /\
  PyFloat.ge_int
    (PyFloat.sub (PyFloat.literal (603 # 10)) (PyFloat.literal (3 # 10))) 60
    = true /\
  (run_span
     [mkSegment (PyFloat.literal (3 # 10)) (PyFloat.literal (603 # 10)) "a"]
   < inject_Z 60)%Q.
Proof.
  split; [vm_compute; reflexivity|]. split; [vm_compute; reflexivity|].
  split; [vm_compute; reflexivity|]. vm_compute. reflexivity.
Qed.

(** C9: the grouping returns a block list for every segment sequence, the
    empty list for the empty sequence; when the loop ends with a non-empty
    [current_text], [block_start] and [last_end] are not [None], so the
    flush formats numbers. *)
Theorem grouping_total (segments : list Segment) (block_seconds : Z) :
  Core.group_blocks [] block_seconds = Ok [] /\
  exists st blocks,
    Core.loop block_seconds (Core.mkLoop [] [] None None) segments = Ok st /\
    (Core.current_text st <> [] ->
       is_Some (Core.block_start st) /\ is_Some (Core.last_end st)) /\
    Core.flush st = Ok blocks /\
    Core.group_blocks segments block_seconds = Ok blocks.
Proof.
  split; [reflexivity|].
  destruct (loop_flush_runs block_seconds segments (Core.mkLoop [] [] None None)
              [] (tracks_nil [] None)) as (st & Hloop & [run Htr] & Hflush).
  exists st, (map render_run (runs segments block_seconds)).
  split; [exact Hloop|]. split; [|split; [exact Hflush|apply group_blocks_runs]].
  destruct Htr as (Htext & Hstart & Hend). intros Hne.
  destruct run as [|s run]; [by rewrite Htext in Hne|].
  rewrite Hstart, Hend by done. split; eexists; reflexivity.
Qed.

(** ** The two copies of the grouping loop *)

Lemma mainpy_loop_body block_seconds st seg :
  Core.loop_body block_seconds (MainPy.to_core st) seg
  = MainPy.to_core <$> MainPy.loop_body block_seconds st seg.
Proof.
  unfold Core.loop_body, MainPy.loop_body, MainPy.to_core. cbn.
  destruct (MainPy.block_start st); cbn [Core.span_reached mbind res_bind];
    destruct (Core.reached _ _ _); reflexivity.
Qed.

Lemma mainpy_loop block_seconds segments : forall st,
  Core.loop block_seconds (MainPy.to_core st) segments
  = MainPy.to_core <$> MainPy.loop block_seconds st segments.
Proof.
  induction segments as [|seg rest IH]; intros st; [reflexivity|].
  cbn [Core.loop MainPy.loop]. rewrite mainpy_loop_body.
  destruct (MainPy.loop_body block_seconds st seg) as [st'|e]; [|reflexivity].
  apply IH.
Qed.

Lemma mainpy_flush st : MainPy.flush st = Core.flush (MainPy.to_core st).
Proof.
  unfold MainPy.flush, Core.flush, MainPy.to_core. cbn.
  destruct (MainPy.current_text st); reflexivity.
Qed.

(** C10: for every segment sequence and threshold, the grouping loop of
    [main.py] and the grouping loop of [whisper_transcriber/core.py] return
    the same list of block strings. *)
Theorem group_blocks_same (segments : list Segment) (block_seconds : Z) :
  MainPy.group_blocks segments block_seconds
  = Core.group_blocks segments block_seconds.
Proof.
  unfold MainPy.group_blocks, Core.group_blocks.
  change (Core.mkLoop [] [] None None)
    with (MainPy.to_core (MainPy.mkLoop [] [] None None)).
  rewrite mainpy_loop.
  destruct (MainPy.loop _ _ _) as [st|e]; [|reflexivity].
  apply mainpy_flush.
Qed.

(** ** Text and time order of the blocks *)

Lemma boundaries_elem r rs :
  r ∈ rs -> run_start r ∈ boundaries rs /\ run_end r ∈ boundaries rs.
Proof.
  induction 1 as [r rs|r r' rs Hin IH]; cbn [boundaries flat_map app].
  - split; [left|right; left].
  - destruct IH as [IH1 IH2]. split; by do 2 right.
Qed.

(** In a block list with sorted boundaries every block ends no earlier than
    it starts and no later than any later block starts. *)
Lemma sorted_boundaries_apart rs :
  StronglySorted Qle (boundaries rs) ->
  forall i j ri rj,
    rs !! i = Some ri -> rs !! j = Some rj -> (i < j)%nat ->
    (run_start ri <= run_end ri)%Q /\ (run_end ri <= run_start rj)%Q.
Proof.
  induction rs as [|r rs IH]; intros Hs i j ri rj Hi Hj Hij; [done|].
  cbn [boundaries flat_map app] in Hs.
  inversion Hs as [|? ? Hs1 Hall1]; subst.
  inversion Hs1 as [|? ? Hs2 Hall2]; subst.
  destruct j as [|j]; [lia|]. cbn in Hj.
  destruct i as [|i]; cbn in Hi.
  - injection Hi as <-. split.
    + by inversion Hall1.
    + rewrite Forall_forall in Hall2. apply Hall2.
      apply (boundaries_elem rj rs). by eapply list_elem_of_lookup_2.
  - apply (IH Hs2 i j); [done..|lia].
Qed.

Lemma last_concat {A} (ls : list (list A)) (l : list A) :
  Forall (fun k => k <> []) ls ->
  last ls = Some l -> last (concat ls) = last l.
Proof.
  induction 1 as [|k ls Hk Hls IH]; [done|].
  destruct ls as [|k' ls].
  - intros [= <-]. cbn. by rewrite app_nil_r.
  - rewrite last_cons_cons. intros Hl.
    change (concat (k :: k' :: ls)) with (k ++ concat (k' :: ls)).
    rewrite last_app, (IH Hl).
    assert (l <> []) as Hne.
    { rewrite Forall_forall in Hls. apply Hls.
      apply last_Some in Hl as [ls' ->]. set_solver. }
    destruct l as [|x l]; [done|]. by destruct (last (x :: l)) eqn:E;
      [|apply last_None in E].
Qed.

(** C2, as the code has it: the text parts of the blocks, joined by single
    spaces, are the stripped segment texts joined by single spaces; for
    segments in time order the block boundaries are non-decreasing. *)
Theorem grouping_preserves_text (segments : list Segment) (block_seconds : Z) :
  Core.group_blocks segments block_seconds
    = Ok (map render_run (runs segments block_seconds)) /\
  PyStr.join " " (map run_text (runs segments block_seconds))
    = PyStr.join " " (map stripped segments) /\
  (time_ordered segments ->
   nondecreasing (boundaries (runs segments block_seconds))).
Proof.
  split; [apply group_blocks_runs|].
  pose proof (runs_from_nonempty block_seconds segments []) as Hne.
  pose proof (runs_from_concat block_seconds segments []) as Hcat.
  fold (runs segments block_seconds) in Hne, Hcat. cbn [app] in Hcat. split.
  - unfold run_text. rewrite (join_concat " " stripped _ Hne). by rewrite Hcat.
  - intros Hord. apply sorted_nondecreasing, StronglySorted_Sorted.
    apply boundaries_sorted; [exact Hne|]. by rewrite Hcat.
Qed.

Lemma grouping_preserves_text_witness :
  time_ordered example_segments /\
  nondecreasing (boundaries (runs example_segments 60)).
Proof.
  assert (time_ordered example_segments) as Hord.
  { cbn; repeat split; q_closed. }
  split; [exact Hord|].
  exact (proj2 (proj2 (grouping_preserves_text example_segments 60)) Hord).
Defined.

(** C2 as stated fails.  With the texts as the speech model gives them, the
    block texts are "a b" and "c": put end to end, and also joined by
    spaces, they differ from the segment texts treated the same way.  For
    segments out of time order the boundaries go down from 20 to 0. *)
Lemma concatenation_counterexample :
  Core.group_blocks spaced_segments 60
    = Ok ["[0.00 - 65.00] a b"; "[66.00 - 70.00] c"] /\
  PyStr.join "" (map run_text (runs spaced_segments 60)) = "a bc" /\
  PyStr.join "" (map seg_text spaced_segments) = " a b c" /\
  PyStr.join " " (map run_text (runs spaced_segments 60)) = "a b c" /\
  PyStr.join " " (map seg_text spaced_segments) = " a  b  c" /\
  Core.group_blocks unordered_segments 5
    = Ok ["[10.00 - 20.00] a"; "[0.00 - 5.00] b"] /\
  ~ nondecreasing (boundaries (runs unordered_segments 5)).
Proof.
  repeat split; try (vm_compute; reflexivity).
  cbn. intros (_ & H & _). revert H. q_closed.
Qed.

(** C3, as the code has it: the blocks are the segment sequence cut into
    consecutive non-empty runs, nothing dropped and nothing between them,
    the last block ending with the last segment whatever its span; for
    segments in time order each block ends no earlier than it starts and no
    later than any later block starts. *)
Theorem blocks_partition_segments (segments : list Segment)
    (block_seconds : Z) :
  Core.group_blocks segments block_seconds
    = Ok (map render_run (runs segments block_seconds)) /\
  concat (runs segments block_seconds) = segments /\
  Forall (fun r => r <> []) (runs segments block_seconds) /\
  (forall r, last (runs segments block_seconds) = Some r ->
     last r = last segments) /\
  (time_ordered segments ->
   forall i j ri rj,
     runs segments block_seconds !! i = Some ri ->
     runs segments block_seconds !! j = Some rj ->
     (i < j)%nat ->
     (run_start ri <= run_end ri)%Q /\ (run_end ri <= run_start rj)%Q).
Proof.
  pose proof (runs_from_nonempty block_seconds segments []) as Hne.
  pose proof (runs_from_concat block_seconds segments []) as Hcat.
  fold (runs segments block_seconds) in Hne, Hcat. cbn [app] in Hcat.
  split; [apply group_blocks_runs|]. split; [exact Hcat|].
  split; [exact Hne|]. split.
  - intros r Hr. rewrite <- (last_concat _ r Hne Hr). by rewrite Hcat.
  - intros Hord. apply sorted_boundaries_apart, boundaries_sorted;
      [exact Hne|by rewrite Hcat].
Qed.

Lemma blocks_partition_segments_witness :
  time_ordered example_segments /\
  (run_end [seg_of_Z 0 30 "a"; seg_of_Z 31 65 "b"]
   <= run_start [seg_of_Z 66 70 "c"])%Q.
Proof.
  assert (time_ordered example_segments) as Hord
    by (cbn; repeat split; q_closed).
  split; [exact Hord|].
  destruct (blocks_partition_segments example_segments 60)
    as (_ & _ & _ & _ & Hapart).
  apply (Hapart Hord 0%nat 1%nat); [reflexivity|reflexivity|lia].
Defined.

(** C3 as stated fails on segments that overlap in time: the second block
    starts at 0, before the first one, which runs from 10 to 20, and
    overlaps it up to 15. *)
Lemma overlap_counterexample :
  Core.group_blocks overlapping_segments 5
    = Ok ["[10.00 - 20.00] a"; "[0.00 - 15.00] b"] /\
  runs overlapping_segments 5
    = [[seg_of_Z 10 20 "a"]; [seg_of_Z 0 15 "b"]] /\
  ~ (run_end [seg_of_Z 10 20 "a"] <= run_start [seg_of_Z 0 15 "b"])%Q /\
  (run_start [seg_of_Z 0 15 "b"] < run_start [seg_of_Z 10 20 "a"])%Q.
Proof.
  split; [vm_compute; reflexivity|]. split; [reflexivity|].
  cbn. split; q_closed.
Qed.

(** ** Device selection *)

Lemma pref_is_exclusive device_preference :
  Core.pref_is device_preference "cuda" = true ->
  Core.pref_is device_preference "cpu" = false.
Proof.
  destruct device_preference as [p|]; [|discriminate]. cbn.
  intros ->%String.eqb_eq. reflexivity.
Qed.

Lemma get_device_value X device_preference w :
  (Core.get_device X device_preference w).1
    = Ok (if cuda_is_available X
          then (if Core.pref_is device_preference "cpu" then "cpu" else "cuda")
          else "cpu") /\
  fs (Core.get_device X device_preference w).2 = fs w.
Proof.
  unfold Core.get_device.
  destruct (cuda_is_available X),
    (Core.pref_is device_preference "cuda") eqn:Hcuda; cbn.
  - by rewrite (pref_is_exclusive _ Hcuda).
  - by destruct (Core.pref_is device_preference "cpu").
  - by destruct (Core.pref_is device_preference "cpu").
  - by destruct (Core.pref_is device_preference "cpu").
Qed.

(** C7, as the code has it: [get_device] does not raise and returns "cpu"
    or "cuda": "cpu" whenever CUDA is unavailable, whatever was asked for,
    and when "cpu" was asked for; with CUDA available and any other or no
    preference it returns "cuda".  The file system is left as it was. *)
Theorem get_device_resolution (X : Ext) (device_preference : option string)
    (w : World) :
  (Core.get_device X device_preference w).1
    = Ok (if cuda_is_available X
          then (if Core.pref_is device_preference "cpu" then "cpu" else "cuda")
          else "cpu") /\
  fs (Core.get_device X device_preference w).2 = fs w.
Proof. apply get_device_value. Qed.

(** C7 as stated fails: with no preference and CUDA available the device is
    "cuda", not "cpu". *)
Lemma unset_preference_counterexample :
  (Core.get_device (demo_ext true (demo_args "/data") (mret tt) []) None
     demo_world).1 = Ok "cuda".
Proof. reflexivity. Qed.

Example cuda_request_falls_back :
  Core.get_device (demo_ext false (demo_args "/data") (mret tt) [])
    (Some "cuda") demo_world
  = (Ok "cpu", mkWorld (fs demo_world) ["[INFO] Auto-detected device: CPU"]).
Proof. reflexivity. Qed.

(** ** The temporary directory of [process_video] *)

Lemma bind_ok {A B} (m : M A) (k : A -> M B) w a w' :
  m w = (Ok a, w') -> (m ≫= k) w = k a w'.
Proof. intros H. unfold mbind, M_bind. by rewrite H. Qed.

Lemma bind_raise {A B} (m : M A) (k : A -> M B) w e w' :
  m w = (Raise e, w') -> (m ≫= k) w = (Raise e, w').
Proof. intros H. unfold mbind, M_bind. by rewrite H. Qed.

(** After [rmtree], nothing is left at or below the directory. *)
Lemma rmtree_removes d p w :
  OsPath.under d p = true ->
  fs (rmtree_ignore_errors d w).2 !! p = None.
Proof.
  intros Hp. cbn. apply map_lookup_filter_None. right.
  intros x _. cbn. congruence.
Qed.

(** The cleanup of [try ... finally] has run when the statement is left,
    on a normal exit as on an exception, and the outcome is the body's. *)
Lemma try_finally_rmtree {A} (body : M A) d w :
  try_finally body (rmtree_ignore_errors d) w
  = ((body w).1, (rmtree_ignore_errors d (body w).2).2).
Proof. unfold try_finally. destruct (body w) as [r w1]. reflexivity. Qed.

(** C6: when [process_video] is left, by a normal return or by an exception
    of the extraction, the transcription or an export, the temporary
    directory it created is not in the file system, nor is anything below
    it; the outcome is the one of the pipeline. *)
Theorem process_video_removes_temp_dir (X : Ext)
    (video_path model_name device : string) (block_seconds : Z)
    (formats : list string) (ffmpeg_path : string) (w : World)
    (temp_dir p : string) :
  mkdtemp_pick X "whisper_audio_" (announced video_path w) = Ok temp_dir ->
  OsPath.under temp_dir p = true ->
  fs (Core.process_video X video_path model_name device block_seconds
        formats ffmpeg_path w).2 !! p = None /\
  (Core.process_video X video_path model_name device block_seconds
     formats ffmpeg_path w).1
  = (Core.pipeline X video_path model_name device block_seconds formats
       ffmpeg_path (OsPath.join temp_dir ["temp_audio.wav"])
       (mkdtemp X "whisper_audio_" (announced video_path w)).2).1.
Proof.
  intros Hpick Hp. unfold Core.process_video.
  rewrite (bind_ok _ _ w tt (announced video_path w)) by reflexivity.
  assert (mkdtemp X "whisper_audio_" (announced video_path w)
          = (Ok temp_dir,
             mkWorld (<[temp_dir := Dir]> (fs (announced video_path w)))
               (stdout (announced video_path w)))) as Hmk
    by (unfold mkdtemp; by rewrite Hpick).
  rewrite (bind_ok _ _ _ _ _ Hmk), try_finally_rmtree, Hmk.
  split; [by apply rmtree_removes|reflexivity].
Qed.

Lemma process_video_removes_temp_dir_witness :
  fs (Core.process_video
        (demo_ext false (demo_args "/data/talk.mp4") failing_load [])
        "/data/talk.mp4" "base" "cpu" 60 ["docx"] "/usr/bin/ffmpeg"
        demo_world).2 !! "/tmp/whisper_audio_k3x9/temp_audio.wav" = None /\
  (Core.process_video
     (demo_ext false (demo_args "/data/talk.mp4") failing_load [])
     "/data/talk.mp4" "base" "cpu" 60 ["docx"] "/usr/bin/ffmpeg"
     demo_world).1 = Raise (OtherError "RuntimeError").
Proof.
  destruct (process_video_removes_temp_dir
              (demo_ext false (demo_args "/data/talk.mp4") failing_load [])
              "/data/talk.mp4" "base" "cpu" 60 ["docx"] "/usr/bin/ffmpeg"
              demo_world "/tmp/whisper_audio_k3x9"
              "/tmp/whisper_audio_k3x9/temp_audio.wav") as [Hgone Hres];
    [reflexivity|reflexivity|].
  split; [exact Hgone|]. rewrite Hres. reflexivity.
Defined.

(** The transcoder's output exists in the temporary directory while the
    pipeline runs; after a run that succeeds the directory and the file are
    gone and the other entries are still there. *)
Example audio_file_during_pipeline :
  fs (Core.extract_audio
        (demo_ext false (demo_args "/data/talk.mp4") (mret tt) [])
        "/data/talk.mp4" "/tmp/whisper_audio_k3x9/temp_audio.wav"
        "/usr/bin/ffmpeg" demo_world).2
    !! "/tmp/whisper_audio_k3x9/temp_audio.wav" = Some File.
Proof. reflexivity. Qed.

Example process_video_success :
  let r := Core.process_video
             (demo_ext false (demo_args "/data/talk.mp4") (mret tt) [])
             "/data/talk.mp4" "base" "cpu" 60 ["docx"] "/usr/bin/ffmpeg"
             demo_world in
  r.1 = Ok tt /\
  fs r.2 !! "/tmp/whisper_audio_k3x9" = None /\
  fs r.2 !! "/tmp/whisper_audio_k3x9/temp_audio.wav" = None /\
  fs r.2 !! "/data/talk.mp4" = Some File.
Proof. vm_compute. repeat split; reflexivity. Qed.

(** ** The batch driver *)

Lemma get_device_ok X device_preference w :
  exists device,
    Core.get_device X device_preference w
    = (Ok device, (Core.get_device X device_preference w).2).
Proof.
  destruct (get_device_value X device_preference w) as [Hres _].
  destruct (Core.get_device X device_preference w) as [r w2].
  cbn in Hres. subst r. eexists. reflexivity.
Qed.

Lemma get_ffmpeg_path_missing X w :
  ffmpeg_located X w = false ->
  Cli.get_ffmpeg_path X w
  = (Raise (SystemExit 1),
     mkWorld (fs w)
       (stdout w ++
        ["[ERROR] ffmpeg not found! Install globally or place in ./ffmpeg/bin/"])).
Proof.
  unfold ffmpeg_located. intros [Hwhich Hlocal]%orb_false_elim.
  unfold Cli.get_ffmpeg_path, Cli.shutil_which, mbind, M_bind.
  rewrite Hwhich. unfold OsPath.exists_. fold (local_ffmpeg X).
  rewrite Hlocal. reflexivity.
Qed.

Lemma get_ffmpeg_path_found X w :
  ffmpeg_located X w = true ->
  exists ffmpeg_path, Cli.get_ffmpeg_path X w = (Ok ffmpeg_path, w).
Proof.
  unfold ffmpeg_located. intros Hloc.
  unfold Cli.get_ffmpeg_path, Cli.shutil_which, mbind, M_bind.
  destruct (Cli.truthy_opt (which X "ffmpeg" w)); [eexists; reflexivity|].
  unfold OsPath.exists_. fold (local_ffmpeg X).
  rewrite orb_false_l in Hloc. rewrite Hloc. eexists. reflexivity.
Qed.

Lemma for_each_ok {A} (body : A -> M unit) (l : list A) :
  (forall x w, (body x w).1 = Ok tt) ->
  forall w, (for_each l body w).1 = Ok tt.
Proof.
  intros Hbody. induction l as [|x l IH]; intros w; [reflexivity|].
  cbn [for_each]. unfold mbind, M_bind.
  specialize (Hbody x w). destruct (body x w) as [[[]|e] w']; cbn in Hbody;
    [apply IH|discriminate].
Qed.

Lemma for_each_returns_iff {A} (body : A -> M unit) (l : list A) :
  forall w, (for_each l body w).1 = Ok tt <-> calls_return body l w.
Proof.
  induction l as [|x l IH]; intros w; cbn [for_each calls_return];
    [done|].
  unfold mbind, M_bind.
  destruct (body x w) as [[[]|e] w0]; split.
  - intros Hok. exists w0. split; [reflexivity|by apply IH].
  - intros (w' & [= <-] & Hrest). by apply IH.
  - discriminate.
  - intros (w' & Hbody & _). discriminate.
Qed.

(** C8, as the code has it: [main] itself exits, with status 1, only when
    [ffmpeg] is neither on the system path nor bundled.  It catches no
    exception: an exit of the argument parser ends the run, and for a single
    video the outcome of [main] is the outcome of [process_video].  When
    the command line parses and [ffmpeg] is located, [main] returns
    normally exactly when every [process_video] call it makes returns.  A
    directory scan that finds no video prints "No video files found in the
    folder." and does nothing else. *)
Theorem main_outcomes (X : Ext) (w : World) :
  (forall e w1, parse_args X w = (Raise e, w1) ->
     Cli.main X w = (Raise e, w1)) /\
  (forall args w1, parse_args X w = (Ok args, w1) ->
     let w2 := (Core.get_device X (arg_device args) w1).2 in
     (ffmpeg_located X w2 = false ->
        (Cli.main X w).1 = Raise (SystemExit 1)) /\
     (ffmpeg_located X w2 = true ->
        (fs w2 !! arg_input args = Some File ->
         Cli.is_video (arg_input args) = true ->
         exists device ffmpeg_path,
           Cli.main X w
           = Core.process_video X (arg_input args) (arg_model args) device
               (arg_block args) (formats_of args) ffmpeg_path w2) /\
        (fs w2 !! arg_input args = Some Dir ->
         Cli.collect_videos (os_walk X (arg_input args) w2) = [] ->
         Cli.main X w
         = (Ok tt,
            mkWorld (fs w2)
              (stdout w2 ++ ["No video files found in the folder."]))) /\
        (exists device ffmpeg_path,
           Core.get_device X (arg_device args) w1 = (Ok device, w2) /\
           Cli.get_ffmpeg_path X w2 = (Ok ffmpeg_path, w2) /\
           ((Cli.main X w).1 = Ok tt <->
            calls_return
              (fun v =>
                 Core.process_video X v (arg_model args) device
                   (arg_block args) (formats_of args) ffmpeg_path)
              (jobs X args w2) (jobs_world X args w2))))).
Proof.
  split.
  { intros e w1 Hparse. unfold Cli.main. by apply bind_raise. }
  intros args w1 Hparse w2.
  destruct (get_device_ok X (arg_device args) w1) as [device Hdev].
  fold w2 in Hdev.
  unfold Cli.main.
  rewrite (bind_ok _ _ _ _ _ Hparse), (bind_ok _ _ _ _ _ Hdev).
  split.
  { intros Hloc.
    by rewrite (bind_raise _ _ _ _ _ (get_ffmpeg_path_missing X w2 Hloc)). }
  intros Hloc. destruct (get_ffmpeg_path_found X w2 Hloc) as [ff Hff].
  rewrite (bind_ok _ _ _ _ _ Hff).
  rewrite (bind_ok (OsPath.isfile (arg_input args)) _ w2 _ w2) by reflexivity.
  fold (formats_of args).
  split; [|split].
  - intros Hfile Hvid. rewrite bool_decide_true by done. rewrite Hvid.
    exists device, ff. reflexivity.
  - intros Hdir Hscan. rewrite bool_decide_false by congruence.
    cbn [andb].
    rewrite (bind_ok (OsPath.isdir (arg_input args)) _ w2 _ w2) by reflexivity.
    rewrite bool_decide_true by done.
    rewrite (bind_ok (Cli.walk X (arg_input args)) _ w2 _ w2) by reflexivity.
    rewrite Hscan. reflexivity.
  - exists device, ff. split; [exact Hdev|]. split; [exact Hff|].
    unfold jobs, jobs_world.
    destruct (bool_decide _ && Cli.is_video _).
    { rewrite <- for_each_returns_iff. cbn [for_each].
      unfold mbind, M_bind.
      by destruct (Core.process_video _ _ _ _ _ _ _ _) as [[[]|e] w']. }
    rewrite (bind_ok (OsPath.isdir (arg_input args)) _ w2 _ w2) by reflexivity.
    destruct (bool_decide _); [|done].
    rewrite (bind_ok (Cli.walk X (arg_input args)) _ w2 _ w2) by reflexivity.
    destruct (Cli.collect_videos _) as [|v vs]; [done|].
    rewrite (bind_ok (print _) _ w2 tt _) by reflexivity.
    apply for_each_returns_iff.
Qed.

Lemma main_outcomes_witness :
  Cli.main
    (demo_ext false (demo_args "/data/notes") (mret tt)
       [("/data/notes", ["readme.txt"; "todo.md"])])
    demo_world
  = (Ok tt,
     mkWorld (fs demo_world)
       ["[INFO] Auto-detected device: CPU";
        "No video files found in the folder."]).
Proof.
  destruct (main_outcomes
              (demo_ext false (demo_args "/data/notes") (mret tt)
                 [("/data/notes", ["readme.txt"; "todo.md"])])
              demo_world) as [_ Hparsed].
  destruct (Hparsed (demo_args "/data/notes") demo_world eq_refl)
    as [_ Hlocated].
  destruct (Hlocated eq_refl) as (_ & Hscan & _).
  rewrite (Hscan eq_refl eq_refl). reflexivity.
Defined.

(** C8 as stated fails: [ffmpeg] is located, loading the speech model
    raises, [main] does not catch the exception, and the run ends with
    status 1. *)
Lemma uncaught_exception_counterexample :
  ffmpeg_located
    (demo_ext false (demo_args "/data/talk.mp4") failing_load [])
    demo_world = true /\
  (Cli.main (demo_ext false (demo_args "/data/talk.mp4") failing_load [])
     demo_world).1 = Raise (OtherError "RuntimeError") /\
  exit_status
    (Cli.main (demo_ext false (demo_args "/data/talk.mp4") failing_load [])
       demo_world).1 = 1%Z.
Proof. vm_compute. repeat split; reflexivity. Qed.

Example missing_ffmpeg_exits :
  exit_status
    (Cli.main
       (mkExt false (fun _ => mret tt) (fun _ _ => mret tt)
          (fun _ _ _ => mret example_segments) (fun _ _ => mret tt)
          (fun _ _ => mret tt) (fun _ _ => mret tt)
          (fun _ _ => Ok "/tmp/whisper_audio_k3x9")
          (mret (demo_args "/data/talk.mp4")) (fun _ _ => None)
          (fun _ _ => []) "/app/whisper_transcriber")
       demo_world).1 = 1%Z.
Proof. reflexivity. Qed.

(** * Further properties of the code *)

(** ** Shapes of the grouping *)

Lemma length_concat_nonempty {A} (ls : list (list A)) :
  Forall (fun l => l <> []) ls -> (length ls <= length (concat ls))%nat.
Proof.
  induction 1 as [|l ls Hl _ IH]; [reflexivity|].
  cbn [concat length]. rewrite length_app.
  destruct l; [done|]. cbn [length]. lia.
Qed.

(** X1: There are at most as many blocks as segments, and there is no block
    only when there is no segment. *)
Theorem block_count_bounded (segments : list Segment) (block_seconds : Z) :
  exists blocks,
    Core.group_blocks segments block_seconds = Ok blocks /\
    (length blocks <= length segments)%nat /\
    (blocks = [] <-> segments = []).
Proof.
  exists (map render_run (runs segments block_seconds)).
  pose proof (runs_from_nonempty block_seconds segments []) as Hne.
  pose proof (runs_from_concat block_seconds segments []) as Hcat.
  fold (runs segments block_seconds) in Hne, Hcat. cbn [app] in Hcat.
  split; [apply group_blocks_runs|]. rewrite length_map. split.
  - rewrite <- Hcat at 2. by apply length_concat_nonempty.
  - split.
    + intros Hnil. apply fmap_nil_inv in Hnil.
      rewrite <- Hcat, Hnil. reflexivity.
    + intros ->. reflexivity.
Qed.

Lemma round_half_even_nonneg a b :
  (0 <= a)%Z -> (0 < b)%Z -> (0 <= PyFloat.round_half_even a b)%Z.
Proof.
  intros Ha Hb. unfold PyFloat.round_half_even.
  pose proof (Z.div_pos a b Ha Hb).
  repeat destruct (_ <? _)%Z; try destruct (Z.even _); lia.
Qed.

Lemma scale_nonneg n d e a b :
  (0 <= n)%Z -> (0 < d)%Z -> PyFloat.scale n d e = (a, b) ->
  (0 <= a)%Z /\ (0 < b)%Z.
Proof.
  intros Hn Hd. unfold PyFloat.scale.
  destruct (0 <=? e)%Z eqn:He; intros [= <- <-].
  - apply Z.leb_le in He. pose proof (Z.pow_pos_nonneg 2 e). nia.
  - apply Z.leb_gt in He. pose proof (Z.pow_pos_nonneg 2 (- e)). nia.
Qed.

Lemma value_nonneg m e : (0 <= m)%Z -> (0 <= PyFloat.value m e)%Q.
Proof.
  intros Hm. unfold PyFloat.value. destruct (0 <=? e)%Z eqn:He.
  - apply Z.leb_le in He. pose proof (Z.pow_pos_nonneg 2 e).
    unfold Qle. cbn. nia.
  - unfold Qle. cbn. lia.
Qed.

(** The float difference of two floats is not negative when the exact one
    is not: it is at least any threshold of zero or less. *)
Lemma reached_nonneg (e b : Q) (block_seconds : Z) :
  (b <= e)%Q -> (block_seconds <= 0)%Z ->
  Core.reached e b block_seconds = true.
Proof.
  intros Hbe Hthr. unfold Core.reached, PyFloat.sub, PyFloat.round.
  assert (inject_Z block_seconds <= 0)%Q as Hthr'
    by (unfold Qle; cbn; lia).
  assert (0 <= Qnum (e - b))%Z as Hnum.
  { apply (Qle_minus_iff b e) in Hbe. unfold Qle in Hbe. cbn in Hbe.
    unfold Qminus. cbn. lia. }
  destruct (Qnum (e - b) =? 0)%Z eqn:Hzero.
  { cbn. by apply Qle_bool_iff. }
  apply Z.eqb_neq in Hzero.
  assert ((Qnum (e - b) <? 0)%Z = false) as -> by (apply Z.ltb_ge; lia).
  unfold PyFloat.round_pos.
  destruct (PyFloat.scale _ _ _) as [a d] eqn:Hscale.
  apply scale_nonneg in Hscale as [Ha Hd]; [|lia|lia].
  destruct (_ && _); [reflexivity|]. cbn [PyFloat.ge_int].
  apply Qle_bool_iff. apply Qle_trans with 0%Q; [exact Hthr'|].
  apply value_nonneg. by apply round_half_even_nonneg.
Qed.

(** X2: With a threshold of zero or less, if no segment ends before it
    starts, every segment is a block of its own. *)
Theorem nonpositive_threshold_splits_all (segments : list Segment)
    (block_seconds : Z) :
  (block_seconds <= 0)%Z ->
  Forall (fun s => (seg_start s <= seg_end s)%Q) segments ->
  Core.group_blocks segments block_seconds
  = Ok (map (fun s => render_run [s]) segments).
Proof.
  intros Hthr Hsegs. rewrite group_blocks_runs. f_equal.
  rewrite <- (map_map (fun s => [s]) render_run). f_equal.
  unfold runs. induction Hsegs as [|s rest Hs _ IH]; [reflexivity|].
  cbn [runs_from app run_start map].
  by rewrite (reached_nonneg _ _ _ Hs Hthr), IH.
Qed.

Lemma nonpositive_threshold_splits_all_witness :
  Core.group_blocks example_segments 0
  = Ok (map (fun s => render_run [s]) example_segments).
Proof.
  apply nonpositive_threshold_splits_all; [lia|].
  repeat constructor; q_closed.
Defined.

Lemma runs_from_single block_seconds segments : forall run,
  run <> [] ->
  Forall (fun s => Core.reached (seg_end s) (run_start run) block_seconds
                   = false) segments ->
  runs_from block_seconds run segments = [run ++ segments].
Proof.
  induction segments as [|seg rest IH]; intros run Hne Hall.
  - rewrite app_nil_r. by destruct run.
  - inversion Hall as [|? ? Hseg Hrest]; subst. cbn [runs_from].
    assert (run_start (run ++ [seg]) = run_start run) as Hstart
      by (by destruct run).
    rewrite Hstart, Hseg.
    rewrite IH; [by rewrite <- app_assoc|by destruct run|by rewrite Hstart].
Qed.

(** X3: When for every segment the difference of its end and the start of
    the first segment, as the program computes it in floating point, is
    below the threshold, the segments make one block. *)
Theorem short_recording_one_block (first : Segment) (rest : list Segment)
    (block_seconds : Z) :
  Forall (fun s => PyFloat.ge_int (PyFloat.sub (seg_end s) (seg_start first))
                     block_seconds = false)
    (first :: rest) ->
  Core.group_blocks (first :: rest) block_seconds
  = Ok [render_run (first :: rest)].
Proof.
  intros Hall. rewrite group_blocks_runs. f_equal.
  unfold runs. change (first :: rest) with ([] ++ first :: rest) at 1.
  inversion Hall as [|? ? Hfirst Hrest]; subst. cbn [runs_from app run_start].
  fold (Core.reached (seg_end first) (seg_start first) block_seconds) in Hfirst.
  rewrite Hfirst.
  by rewrite (runs_from_single block_seconds rest [first]).
Qed.

Lemma short_recording_one_block_witness :
  Core.group_blocks example_segments 100
  = Ok [render_run example_segments].
Proof.
  apply (short_recording_one_block (seg_of_Z 0 30 "a")).
  repeat constructor.
Defined.

(** ** Reading more segments *)

Section StreamingFacts.

Variable block_seconds : Z.

Lemma runs_from_split segments : forall run,
  runs_from block_seconds run segments
  = Streaming.closed_runs block_seconds run segments
    ++ match Streaming.open_run block_seconds run segments with
       | [] => []
       | s :: r => [s :: r]
       end.
Proof.
  induction segments as [|seg rest IH]; intros run;
    cbn [runs_from Streaming.closed_runs Streaming.open_run].
  - by destruct run.
  - destruct (Core.reached _ _ _); [|apply IH]. by rewrite IH.
Qed.

Lemma runs_from_app l1 l2 : forall run,
  runs_from block_seconds run (l1 ++ l2)
  = Streaming.closed_runs block_seconds run l1
    ++ runs_from block_seconds (Streaming.open_run block_seconds run l1) l2.
Proof.
  induction l1 as [|seg rest IH]; intros run; [reflexivity|].
  cbn [app runs_from Streaming.closed_runs Streaming.open_run].
  destruct (Core.reached _ _ _); [|apply IH]. by rewrite IH.
Qed.

Lemma open_run_below segments : forall run,
  below block_seconds run ->
  below block_seconds (Streaming.open_run block_seconds run segments).
Proof.
  induction segments as [|seg rest IH]; intros run Hrun; [exact Hrun|].
  cbn [Streaming.open_run]. destruct (Core.reached _ _ _) eqn:Hcond.
  - apply IH, below_nil.
  - apply IH. by apply below_snoc.
Qed.

(** When the last block has reached the threshold, no run is left open. *)
Lemma closed_last_no_open_run segments r :
  last (runs segments block_seconds) = Some r ->
  run_reached block_seconds r = true ->
  Streaming.open_run block_seconds [] segments = [].
Proof.
  unfold runs. rewrite runs_from_split. intros Hlast Hreach.
  pose proof (open_run_below segments [] (below_nil block_seconds)) as Hbelow.
  destruct (Streaming.open_run block_seconds [] segments) as [|s o];
    [reflexivity|].
  rewrite last_snoc in Hlast. injection Hlast as <-.
  rewrite (Hbelow (s :: o) ltac:(done) ltac:(done)) in Hreach. discriminate.
Qed.

End StreamingFacts.

Lemma earlier_runs_stable (l1 l2 : list Segment) (block_seconds : Z)
    (i : nat) :
  (S i < length (runs l1 block_seconds))%nat ->
  runs (l1 ++ l2) block_seconds !! i = runs l1 block_seconds !! i.
Proof.
  unfold runs. rewrite runs_from_split, runs_from_app. intros Hlen.
  assert (i < length (Streaming.closed_runs block_seconds [] l1))%nat as Hi.
  { rewrite length_app in Hlen.
    destruct (Streaming.open_run block_seconds [] l1); cbn in Hlen; lia. }
  by rewrite !lookup_app_l.
Qed.

(** X4: Blocks are not revised by what is read later: every block of a
    recording but its last one is, at the same place, a block of any longer
    recording that starts with it. *)
Theorem earlier_blocks_stable (l1 l2 : list Segment) (block_seconds : Z)
    (blocks1 blocks12 : list string) (i : nat) (b : string) :
  Core.group_blocks l1 block_seconds = Ok blocks1 ->
  Core.group_blocks (l1 ++ l2) block_seconds = Ok blocks12 ->
  blocks1 !! i = Some b ->
  (S i < length blocks1)%nat ->
  blocks12 !! i = Some b.
Proof.
  rewrite !group_blocks_runs. intros [= <-] [= <-].
  rewrite length_map, !list_lookup_fmap. intros Hb Hlen.
  by rewrite earlier_runs_stable.
Qed.

Lemma earlier_blocks_stable_witness :
  ["[0.00 - 65.00] a b"; "[66.00 - 140.00] c d"] !! 0%nat
  = Some "[0.00 - 65.00] a b".
Proof.
  apply (earlier_blocks_stable example_segments [seg_of_Z 71 140 "d"] 60
           ["[0.00 - 65.00] a b"; "[66.00 - 70.00] c"]).
  - vm_compute. reflexivity.
  - vm_compute. reflexivity.
  - reflexivity.
  - cbn. lia.
Defined.

(** X5: A recording whose last block has reached the threshold, by the
    test of the program (the float difference of its end and its start is
    at least the threshold), can be continued: the blocks of the whole are
    its blocks followed by the blocks of the continuation. *)
Theorem grouping_continues_after_closed_block (l1 l2 : list Segment)
    (block_seconds : Z) (r : list Segment) :
  last (runs l1 block_seconds) = Some r ->
  PyFloat.ge_int (PyFloat.sub (run_end r) (run_start r)) block_seconds
    = true ->
  exists b1 b2,
    Core.group_blocks l1 block_seconds = Ok b1 /\
    Core.group_blocks l2 block_seconds = Ok b2 /\
    Core.group_blocks (l1 ++ l2) block_seconds = Ok (b1 ++ b2).
Proof.
  intros Hlast Hreach.
  exists (map render_run (runs l1 block_seconds)),
         (map render_run (runs l2 block_seconds)).
  split; [apply group_blocks_runs|]. split; [apply group_blocks_runs|].
  rewrite group_blocks_runs, <- map_app. do 2 f_equal.
  pose proof (closed_last_no_open_run block_seconds l1 r Hlast Hreach) as Hopen.
  unfold runs. rewrite runs_from_app, (runs_from_split block_seconds l1 []).
  rewrite Hopen. by rewrite app_nil_r.
Qed.

Lemma grouping_continues_after_closed_block_witness :
  exists b1 b2,
    Core.group_blocks [seg_of_Z 0 30 "a"; seg_of_Z 31 65 "b"] 60 = Ok b1 /\
    Core.group_blocks [seg_of_Z 66 70 "c"] 60 = Ok b2 /\
    Core.group_blocks
      ([seg_of_Z 0 30 "a"; seg_of_Z 31 65 "b"] ++ [seg_of_Z 66 70 "c"]) 60
    = Ok (b1 ++ b2).
Proof.
  apply (grouping_continues_after_closed_block _ _ 60
           [seg_of_Z 0 30 "a"; seg_of_Z 31 65 "b"]).
  - vm_compute. reflexivity.
  - vm_compute. reflexivity.
Defined.

(** ** The steps of [process_video] *)

(** X6: When the speech model loads and transcribes, [transcribe_with_whisper]
    returns the blocks of the segments it was given and reports their
    number; the grouping adds no failure of its own. *)
Theorem transcribe_returns_grouping (X : Ext)
    (audio_path model_name device : string) (block_seconds : Z)
    (w w2 w4 : World) (segments : list Segment) :
  load_model X model_name device
    (printed ("[INFO] Loading Whisper model: " +:+ model_name +:+ " on "
              +:+ PyStr.upper device) w) = (Ok tt, w2) ->
  model_transcribe X model_name device audio_path
    (printed "[INFO] Starting transcription..." w2) = (Ok segments, w4) ->
  Core.transcribe_with_whisper X audio_path model_name device block_seconds w
  = (Ok (map render_run (runs segments block_seconds)),
     printed ("[INFO] Transcription complete. Total blocks: "
              +:+ PyStr.str_of_N
                    (N.of_nat (length (runs segments block_seconds)))) w4).
Proof.
  intros Hload Htrans. unfold Core.transcribe_with_whisper.
  rewrite (bind_ok (print _) _ w tt _) by reflexivity.
  rewrite (bind_ok _ _ _ _ _ Hload).
  rewrite (bind_ok (print _) _ w2 tt _) by reflexivity.
  rewrite (bind_ok _ _ _ _ _ Htrans).
  unfold lift_res at 1. unfold mbind at 1, M_bind at 1.
  rewrite group_blocks_runs, length_map. reflexivity.
Qed.

Lemma transcribe_returns_grouping_witness :
  Core.transcribe_with_whisper
    (demo_ext false (demo_args "/data/talk.mp4") (mret tt) [])
    "/tmp/whisper_audio_k3x9/temp_audio.wav" "base" "cpu" 60 demo_world
  = (Ok (map render_run (runs example_segments 60)),
     printed "[INFO] Transcription complete. Total blocks: 2"
       (printed "[INFO] Starting transcription..."
          (printed "[INFO] Loading Whisper model: base on CPU" demo_world))).
Proof.
  apply (transcribe_returns_grouping
           (demo_ext false (demo_args "/data/talk.mp4") (mret tt) [])
           "/tmp/whisper_audio_k3x9/temp_audio.wav" "base" "cpu" 60 demo_world
           (printed "[INFO] Loading Whisper model: base on CPU" demo_world)
           (printed "[INFO] Starting transcription..."
              (printed "[INFO] Loading Whisper model: base on CPU" demo_world)));
    reflexivity.
Defined.

Lemma save_as_unknown X blocks base_path fmt :
  known_format fmt = false ->
  Core.save_as X blocks base_path fmt = mret tt.
Proof.
  unfold known_format, Core.save_as.
  intros [[-> ->]%orb_false_elim ->]%orb_false_elim. reflexivity.
Qed.

(** X8: The export loop skips every format that is not "docx", "txt" or "pdf"
    and exports the others in the order given. *)
Theorem unknown_formats_skipped (X : Ext) (blocks : list string)
    (base_path : string) (formats : list string) (w : World) :
  for_each formats (Core.save_as X blocks base_path) w
  = for_each (filter (fun fmt => known_format fmt = true) formats)
      (Core.save_as X blocks base_path) w.
Proof.
  revert w. induction formats as [|fmt rest IH]; intros w; [reflexivity|].
  destruct (known_format fmt) eqn:Hk.
  - rewrite filter_cons_True by exact Hk. cbn [for_each].
    unfold mbind, M_bind.
    destruct (Core.save_as X blocks base_path fmt w) as [[[]|e] w'];
      [apply IH|reflexivity].
  - rewrite filter_cons_False by congruence. cbn [for_each].
    rewrite (save_as_unknown _ _ _ _ Hk). apply IH.
Qed.

Lemma write_lines (blocks : list string) : forall acc,
  fold_left (fun acc block => acc +:+ block +:+ PyStr.nl) blocks acc
  = acc +:+ foldr (fun block rest => block +:+ PyStr.nl +:+ rest)
              EmptyString blocks.
Proof.
  induction blocks as [|b blocks IH]; intros acc; cbn [fold_left foldr].
  - by rewrite string_app_nil_r.
  - by rewrite IH, !string_app_assoc.
Qed.

(** X7: The text file holds the heading, an empty line, and then every block
    followed by a line feed, in order; with no block, the heading and the
    empty line alone. *)
Theorem save_to_txt_content (X : Ext) (blocks : list string)
    (output_path : string) (w : World) :
  Core.save_to_txt X blocks output_path w
  = write_text X
      ("Video Transcription" +:+ PyStr.nl +:+ PyStr.nl
       +:+ foldr (fun block rest => block +:+ PyStr.nl +:+ rest)
             EmptyString blocks)
      output_path (printed ("[INFO] Saving TXT to: " +:+ output_path) w).
Proof.
  unfold Core.save_to_txt.
  rewrite (bind_ok (print _) _ w tt _ eq_refl), write_lines.
  by rewrite !string_app_assoc.
Qed.

(** X9: The cleanup of [process_video] removes nothing outside the temporary
    directory and prints nothing: every other entry of the file system and
    the output are as the pipeline left them. *)
Theorem process_video_keeps_other_entries (X : Ext)
    (video_path model_name device : string) (block_seconds : Z)
    (formats : list string) (ffmpeg_path : string) (w : World)
    (temp_dir p : string) :
  mkdtemp_pick X "whisper_audio_" (announced video_path w) = Ok temp_dir ->
  OsPath.under temp_dir p = false ->
  fs (Core.process_video X video_path model_name device block_seconds
        formats ffmpeg_path w).2 !! p
  = fs (Core.pipeline X video_path model_name device block_seconds formats
          ffmpeg_path (OsPath.join temp_dir ["temp_audio.wav"])
          (mkdtemp X "whisper_audio_" (announced video_path w)).2).2 !! p /\
  stdout (Core.process_video X video_path model_name device block_seconds
            formats ffmpeg_path w).2
  = stdout (Core.pipeline X video_path model_name device block_seconds
              formats ffmpeg_path (OsPath.join temp_dir ["temp_audio.wav"])
              (mkdtemp X "whisper_audio_" (announced video_path w)).2).2.
Proof.
  intros Hpick Hp. unfold Core.process_video.
  rewrite (bind_ok _ _ w tt (announced video_path w)) by reflexivity.
  assert (mkdtemp X "whisper_audio_" (announced video_path w)
          = (Ok temp_dir,
             mkWorld (<[temp_dir := Dir]> (fs (announced video_path w)))
               (stdout (announced video_path w)))) as Hmk
    by (unfold mkdtemp; by rewrite Hpick).
  rewrite (bind_ok _ _ _ _ _ Hmk), try_finally_rmtree, Hmk.
  split; [|reflexivity]. cbn [snd fs rmtree_ignore_errors].
  destruct (fs _ !! p) as [n|] eqn:Hlook.
  - apply map_lookup_filter_Some. split; [exact Hlook|exact Hp].
  - apply map_lookup_filter_None. by left.
Qed.

Lemma process_video_keeps_other_entries_witness :
  fs (Core.process_video
        (demo_ext false (demo_args "/data/talk.mp4") (mret tt) [])
        "/data/talk.mp4" "base" "cpu" 60 ["docx"] "/usr/bin/ffmpeg"
        demo_world).2 !! "/data/talk.mp4" = Some File.
Proof.
  rewrite (proj1 (process_video_keeps_other_entries
                    (demo_ext false (demo_args "/data/talk.mp4") (mret tt) [])
                    "/data/talk.mp4" "base" "cpu" 60 ["docx"]
                    "/usr/bin/ffmpeg" demo_world "/tmp/whisper_audio_k3x9"
                    "/data/talk.mp4" eq_refl eq_refl)).
  reflexivity.
Defined.

(** ** Looking for the transcoder and for videos *)

(** X12: [get_ffmpeg_path] leaves the file system alone; a path it returns is
    the non-empty one [shutil.which] reported or, failing that, the bundled
    binary, which then exists; it exits with status 1 exactly when neither
    is there. *)
Theorem get_ffmpeg_path_result (X : Ext) (w : World) :
  fs (Cli.get_ffmpeg_path X w).2 = fs w /\
  (forall path, (Cli.get_ffmpeg_path X w).1 = Ok path ->
     (which X "ffmpeg" w = Some path /\ path <> EmptyString)
     \/ (Cli.truthy_opt (which X "ffmpeg" w) = false /\
         path = local_ffmpeg X /\ is_Some (fs w !! path))) /\
  ((Cli.get_ffmpeg_path X w).1 = Raise (SystemExit 1)
   <-> ffmpeg_located X w = false).
Proof.
  unfold ffmpeg_located, Cli.get_ffmpeg_path, Cli.shutil_which, mbind, M_bind,
    OsPath.exists_.
  fold (local_ffmpeg X).
  destruct (which X "ffmpeg" w) as [[|c sys]|]; cbn [Cli.truthy_opt PyStr.truthy].
  - destruct (bool_decide (is_Some (fs w !! local_ffmpeg X))) eqn:Hloc; cbn.
    + split; [reflexivity|]. split; [|split; discriminate].
      intros path [= <-]. right. apply bool_decide_eq_true in Hloc. done.
    + split; [reflexivity|]. split; [discriminate|done].
  - cbn. split; [reflexivity|]. split; [|split; discriminate].
    intros path [= <-]. by left.
  - destruct (bool_decide (is_Some (fs w !! local_ffmpeg X))) eqn:Hloc; cbn.
    + split; [reflexivity|]. split; [|split; discriminate].
      intros path [= <-]. right. apply bool_decide_eq_true in Hloc. done.
    + split; [reflexivity|]. split; [discriminate|done].
Qed.

(** X13: The videos collected from a walk are the files with a video extension,
    each joined to the directory it was found in. *)
Theorem collect_videos_spec (walked : list (string * list string))
    (v : string) :
  v ∈ Cli.collect_videos walked <->
  exists root files f,
    (root, files) ∈ walked /\ f ∈ files /\ Cli.is_video f = true /\
    v = OsPath.join root [f].
Proof.
  unfold Cli.collect_videos. rewrite list_elem_of_In, in_flat_map. split.
  - intros ([root files] & Hin & Hv). cbn [fst snd] in Hv.
    apply list_elem_of_In, list_elem_of_fmap in Hv as (f & -> & Hf).
    apply list_elem_of_filter in Hf as [Hvid Hf].
    exists root, files, f. rewrite list_elem_of_In.
    repeat split; [exact Hin|exact Hf|]. by apply Is_true_true.
  - intros (root & files & f & Hin & Hf & Hvid & ->).
    exists (root, files). split; [by apply list_elem_of_In|].
    apply list_elem_of_In, list_elem_of_fmap. exists f. split; [reflexivity|].
    apply list_elem_of_filter. split; [by apply Is_true_true|exact Hf].
Qed.

(** The videos are collected in the order of the walk. *)
Lemma collect_videos_app (walked1 walked2 : list (string * list string)) :
  Cli.collect_videos (walked1 ++ walked2)
  = Cli.collect_videos walked1 ++ Cli.collect_videos walked2.
Proof. unfold Cli.collect_videos. apply flat_map_app. Qed.

Lemma lower_upper_char c r :
  (N_of_ascii c <? 128)%N = true ->
  PyStr.lower (PyStr.upper_char c +:+ r)
  = String (PyStr.lower_char c) (PyStr.lower r).
Proof.
  destruct c as [[] [] [] [] [] [] [] []]; intros Hc;
    first [discriminate Hc | reflexivity].
Qed.

Lemma lower_lower_char c :
  PyStr.lower_char (PyStr.lower_char c) = PyStr.lower_char c.
Proof. destruct c as [[] [] [] [] [] [] [] []]; reflexivity. Qed.

Lemma lower_upper s :
  PyStr.isascii s = true -> PyStr.lower (PyStr.upper s) = PyStr.lower s.
Proof.
  induction s as [|c s IH]; [reflexivity|].
  cbn [PyStr.isascii]. intros [Hc Hs]%andb_true_iff.
  cbn [PyStr.upper PyStr.lower]. by rewrite (lower_upper_char c _ Hc), IH.
Qed.

Lemma lower_lower s : PyStr.lower (PyStr.lower s) = PyStr.lower s.
Proof.
  induction s as [|c s IH]; [reflexivity|].
  cbn [PyStr.lower]. by rewrite lower_lower_char, IH.
Qed.

(** X14: For a file name of ASCII characters the extension test does not
    depend on the case of the letters: the name, its upper-case form and
    its lower-case form are judged alike. *)
Theorem is_video_ignores_case (f : string) :
  PyStr.isascii f = true ->
  Cli.is_video (PyStr.upper f) = Cli.is_video f /\
  Cli.is_video (PyStr.lower f) = Cli.is_video f.
Proof.
  intros Hascii. unfold Cli.is_video.
  by rewrite (lower_upper f Hascii), lower_lower.
Qed.

Lemma is_video_ignores_case_witness :
  Cli.is_video (PyStr.upper "Talk.Mp4") = Cli.is_video "Talk.Mp4" /\
  Cli.is_video (PyStr.lower "Talk.Mp4") = Cli.is_video "Talk.Mp4".
Proof. apply is_video_ignores_case. reflexivity. Defined.

(** ** More outcomes of [main] *)

Lemma for_each_app_raise {A} (body : A -> M unit) (l1 l2 : list A) :
  forall w e w',
    for_each l1 body w = (Raise e, w') ->
    for_each (l1 ++ l2) body w = (Raise e, w').
Proof.
  induction l1 as [|x l1 IH]; intros w e w' Hraise; [discriminate|].
  cbn [app for_each] in *. unfold mbind, M_bind in *.
  destruct (body x w) as [[[]|e0] w0]; [by apply IH|exact Hraise].
Qed.

(** X15: An input that is neither a video file nor a directory (a path that does
    not exist, a file with another extension) is answered with the error
    line and nothing else: no job runs and [main] returns normally. *)
Theorem main_rejects_other_input (X : Ext) (w w1 : World) (args : Args) :
  parse_args X w = (Ok args, w1) ->
  ffmpeg_located X (Core.get_device X (arg_device args) w1).2 = true ->
  bool_decide (fs (Core.get_device X (arg_device args) w1).2
                 !! arg_input args = Some File)
    && Cli.is_video (arg_input args) = false ->
  fs (Core.get_device X (arg_device args) w1).2 !! arg_input args
    <> Some Dir ->
  Cli.main X w
  = (Ok tt,
     printed "Error: provide a path to a video file or folder containing videos."
       (Core.get_device X (arg_device args) w1).2).
Proof.
  intros Hparse Hloc Hfile Hdir.
  destruct (get_device_ok X (arg_device args) w1) as [device Hdev].
  destruct (get_ffmpeg_path_found X _ Hloc) as [ff Hff].
  unfold Cli.main.
  rewrite (bind_ok _ _ _ _ _ Hparse), (bind_ok _ _ _ _ _ Hdev),
    (bind_ok _ _ _ _ _ Hff).
  rewrite (bind_ok (OsPath.isfile (arg_input args)) _ _ _ _ eq_refl).
  rewrite Hfile.
  rewrite (bind_ok (OsPath.isdir (arg_input args)) _ _ _ _ eq_refl).
  by rewrite bool_decide_false.
Qed.

Lemma main_rejects_other_input_witness :
  Cli.main (demo_ext false (demo_args "/data/readme.txt") (mret tt) [])
    demo_world
  = (Ok tt,
     printed "Error: provide a path to a video file or folder containing videos."
       (printed "[INFO] Auto-detected device: CPU" demo_world)).
Proof.
  apply (main_rejects_other_input
           (demo_ext false (demo_args "/data/readme.txt") (mret tt) [])
           demo_world demo_world (demo_args "/data/readme.txt"));
    [reflexivity|reflexivity|reflexivity|].
  vm_compute. discriminate.
Defined.

(** X16: In a folder, the videos are processed in the order collected and the
    first [process_video] that raises ends the run: the exception leaves
    [main] and the videos after it are not touched. *)
Theorem batch_stops_at_first_failure (X : Ext) (w w1 w2 w' : World)
    (args : Args) (device ffmpeg_path : string)
    (processed remaining : list string) (e : exn) :
  parse_args X w = (Ok args, w1) ->
  Core.get_device X (arg_device args) w1 = (Ok device, w2) ->
  Cli.get_ffmpeg_path X w2 = (Ok ffmpeg_path, w2) ->
  fs w2 !! arg_input args = Some Dir ->
  Cli.collect_videos (os_walk X (arg_input args) w2)
    = processed ++ remaining ->
  for_each processed
    (fun v => Core.process_video X v (arg_model args) device (arg_block args)
                (formats_of args) ffmpeg_path)
    (printed ("Found "
              +:+ PyStr.str_of_N (N.of_nat (length (processed ++ remaining)))
              +:+ " video file(s).") w2)
  = (Raise e, w') ->
  Cli.main X w = (Raise e, w').
Proof.
  intros Hparse Hdev Hff Hdir Hvideos Hraise. unfold Cli.main.
  rewrite (bind_ok _ _ _ _ _ Hparse), (bind_ok _ _ _ _ _ Hdev),
    (bind_ok _ _ _ _ _ Hff).
  rewrite (bind_ok (OsPath.isfile (arg_input args)) _ _ _ _ eq_refl).
  rewrite bool_decide_false by congruence. cbn [andb].
  rewrite (bind_ok (OsPath.isdir (arg_input args)) _ _ _ _ eq_refl).
  rewrite bool_decide_true by exact Hdir.
  rewrite (bind_ok (Cli.walk X (arg_input args)) _ _ _ _ eq_refl).
  rewrite Hvideos. fold (formats_of args).
  destruct (processed ++ remaining) as [|v vs] eqn:Hall.
  { destruct processed; [discriminate Hraise|discriminate Hall]. }
  rewrite (bind_ok (print _) _ w2 tt _ eq_refl). rewrite <- Hall in Hraise |- *.
  apply for_each_app_raise. exact Hraise.
Qed.

Lemma batch_stops_at_first_failure_witness :
  (Cli.main
     (demo_ext false (demo_args "/data") failing_load
        [("/data", ["talk.mp4"; "next.mp4"])])
     demo_world).1 = Raise (OtherError "RuntimeError").
Proof.
  erewrite (batch_stops_at_first_failure
              (demo_ext false (demo_args "/data") failing_load
                 [("/data", ["talk.mp4"; "next.mp4"])])
              demo_world demo_world
              (printed "[INFO] Auto-detected device: CPU" demo_world) _
              (demo_args "/data") "cpu" "/usr/bin/ffmpeg"
              ["/data/talk.mp4"] ["/data/next.mp4"]);
    [reflexivity|reflexivity|reflexivity|reflexivity|reflexivity|reflexivity|].
  vm_compute. reflexivity.
Defined.

(** ** The functions of [main.py] *)

Lemma pref_lower_cuda_not_cpu device_preference :
  MainScript.pref_lower_is device_preference "cuda" = true ->
  MainScript.pref_lower_is device_preference "cpu" = false.
Proof.
  destruct device_preference as [p|]; [|discriminate]. cbn.
  intros ->%String.eqb_eq. reflexivity.
Qed.

Lemma pref_lower_given device_preference s :
  s <> EmptyString ->
  MainScript.pref_lower_is device_preference s = true ->
  MainScript.pref_given device_preference = true.
Proof.
  unfold MainScript.pref_lower_is, MainScript.pref_given, Cli.truthy_opt.
  destruct device_preference as [p|]; [|discriminate].
  intros Hs Heq%String.eqb_eq. destruct p; [by subst|reflexivity].
Qed.

Lemma mainpy_get_device_value X gpu_name device_preference w :
  (MainScript.get_device X gpu_name device_preference w).1
    = Ok (if cuda_is_available X
          then (if MainScript.pref_lower_is device_preference "cpu"
                then "cpu" else "cuda")
          else "cpu") /\
  fs (MainScript.get_device X gpu_name device_preference w).2 = fs w.
Proof.
  unfold MainScript.get_device.
  destruct (MainScript.pref_given device_preference) eqn:Hgiven.
  - destruct (cuda_is_available X),
      (MainScript.pref_lower_is device_preference "cuda") eqn:Hcuda; cbn.
    + by rewrite (pref_lower_cuda_not_cpu _ Hcuda).
    + by destruct (MainScript.pref_lower_is device_preference "cpu").
    + by destruct (MainScript.pref_lower_is device_preference "cpu").
    + by destruct (MainScript.pref_lower_is device_preference "cpu").
  - destruct (MainScript.pref_lower_is device_preference "cpu") eqn:Hcpu.
    + rewrite (pref_lower_given _ "cpu") in Hgiven; done.
    + by destruct (cuda_is_available X).
Qed.

(** X17: [get_device] of [main.py] does not raise and leaves the file system
    alone; it returns "cpu" when CUDA is unavailable or when "cpu" was
    asked for in any letter case, and "cuda" otherwise. *)
Theorem mainpy_get_device_resolution (X : Ext) (gpu_name : string)
    (device_preference : option string) (w : World) :
  (MainScript.get_device X gpu_name device_preference w).1
    = Ok (if cuda_is_available X
          then (if MainScript.pref_lower_is device_preference "cpu"
                then "cpu" else "cuda")
          else "cpu") /\
  fs (MainScript.get_device X gpu_name device_preference w).2 = fs w.
Proof. apply mainpy_get_device_value. Qed.

(** X18: The two [get_device] functions choose the same device for every
    preference written in lower case, the only ones the command line lets
    through. *)
Theorem get_device_siblings_agree (X : Ext) (gpu_name : string)
    (device_preference : option string) (w : World) :
  (forall p, device_preference = Some p -> PyStr.lower p = p) ->
  (MainScript.get_device X gpu_name device_preference w).1
  = (Core.get_device X device_preference w).1.
Proof.
  intros Hlower.
  rewrite (proj1 (mainpy_get_device_value X gpu_name device_preference w)).
  rewrite (proj1 (get_device_value X device_preference w)).
  destruct device_preference as [p|]; [|reflexivity].
  cbn. by rewrite (Hlower p eq_refl).
Qed.

Lemma get_device_siblings_agree_witness :
  (MainScript.get_device
     (demo_ext true (demo_args "/data") (mret tt) []) "RTX" (Some "cpu")
     demo_world).1
  = (Core.get_device (demo_ext true (demo_args "/data") (mret tt) [])
       (Some "cpu") demo_world).1.
Proof.
  apply get_device_siblings_agree. intros p [= <-]. reflexivity.
Defined.

(** In upper case the two differ: [main.py] honours "CPU", [core.py]
    detects the device. *)
Example get_device_siblings_differ :
  (MainScript.get_device
     (demo_ext true (demo_args "/data") (mret tt) []) "RTX" (Some "CPU")
     demo_world).1 = Ok "cpu" /\
  (Core.get_device (demo_ext true (demo_args "/data") (mret tt) [])
     (Some "CPU") demo_world).1 = Ok "cuda".
Proof. split; reflexivity. Qed.

(** X19: [process_video] of [main.py] also leaves no temporary directory behind,
    on a normal return as on an exception of its pipeline, and its outcome
    is the pipeline's. *)
Theorem mainpy_process_video_removes_temp_dir (X : Ext)
    (DEVICE FFMPEG_PATH video_path model_name : string) (block_seconds : Z)
    (w : World) (temp_dir p : string) :
  mkdtemp_pick X "whisper_audio_" (MainScript.announced video_path w)
    = Ok temp_dir ->
  OsPath.under temp_dir p = true ->
  fs (MainScript.process_video X DEVICE FFMPEG_PATH video_path model_name
        block_seconds w).2 !! p = None /\
  (MainScript.process_video X DEVICE FFMPEG_PATH video_path model_name
     block_seconds w).1
  = (MainScript.pipeline X DEVICE FFMPEG_PATH video_path model_name
       block_seconds (OsPath.join temp_dir ["temp_audio.wav"])
       ((OsPath.splitext video_path).1 +:+ ".docx")
       (mkdtemp X "whisper_audio_" (MainScript.announced video_path w)).2).1.
Proof.
  intros Hpick Hp. unfold MainScript.process_video.
  rewrite (bind_ok _ _ w tt (MainScript.announced video_path w))
    by reflexivity.
  assert (mkdtemp X "whisper_audio_" (MainScript.announced video_path w)
          = (Ok temp_dir,
             mkWorld
               (<[temp_dir := Dir]> (fs (MainScript.announced video_path w)))
               (stdout (MainScript.announced video_path w)))) as Hmk
    by (unfold mkdtemp; by rewrite Hpick).
  rewrite (bind_ok _ _ _ _ _ Hmk), try_finally_rmtree, Hmk.
  split; [by apply rmtree_removes|reflexivity].
Qed.

Lemma mainpy_process_video_removes_temp_dir_witness :
  fs (MainScript.process_video
        (demo_ext false (demo_args "/data/talk.mp4") failing_load [])
        "cpu" "/usr/bin/ffmpeg" "/data/talk.mp4" "base" 60
        demo_world).2 !! "/tmp/whisper_audio_k3x9/temp_audio.wav" = None /\
  (MainScript.process_video
     (demo_ext false (demo_args "/data/talk.mp4") failing_load [])
     "cpu" "/usr/bin/ffmpeg" "/data/talk.mp4" "base" 60
     demo_world).1 = Raise (OtherError "RuntimeError").
Proof.
  destruct (mainpy_process_video_removes_temp_dir
              (demo_ext false (demo_args "/data/talk.mp4") failing_load [])
              "cpu" "/usr/bin/ffmpeg" "/data/talk.mp4" "base" 60
              demo_world "/tmp/whisper_audio_k3x9"
              "/tmp/whisper_audio_k3x9/temp_audio.wav") as [Hgone Hres];
    [reflexivity|reflexivity|].
  split; [exact Hgone|]. rewrite Hres. reflexivity.
Defined.

(** ** Font registration *)

Lemma register_font_cases X registerFont describe PDF_FONT w :
  Font.register_font X registerFont describe PDF_FONT w
  = if bool_decide (is_Some (fs w !! Font.FONT_PATH X)) then
      match registerFont "DejaVuSans" (Font.FONT_PATH X) w with
      | (Ok _, w') =>
          (Ok "DejaVuSans",
           printed ("[INFO] Registered font: DejaVuSans ("
                    +:+ Font.FONT_PATH X +:+ ")") w')
      | (Raise e, w') =>
          if Font.is_Exception e then
            (Ok PDF_FONT,
             printed ("[WARNING] Failed to register DejaVuSans, fallback to Helvetica: "
                      +:+ describe e) w')
          else (Raise e, w')
      end
    else
      (Ok PDF_FONT,
       printed ("[WARNING] Font not found at " +:+ Font.FONT_PATH X
                +:+ ", fallback to Helvetica") w).
Proof.
  unfold Font.register_font, OsPath.exists_, Font.try_except_Exception,
    mbind, M_bind.
  destruct (bool_decide _); [|reflexivity].
  destruct (registerFont _ _ w) as [[[]|e] w']; [reflexivity|].
  by destruct (Font.is_Exception e).
Qed.

(** X11: [register_font] lets no [Exception] out: the font in use afterwards is
    "DejaVuSans" or the one before; it is "DejaVuSans" when the font file is
    there and its registration returns, and the one before, with a warning
    and nothing else done, when the file is missing. *)
Theorem register_font_falls_back (X : Ext)
    (registerFont : string -> string -> M unit) (describe : exn -> string)
    (PDF_FONT : string) (w : World) :
  match (Font.register_font X registerFont describe PDF_FONT w).1 with
  | Ok font => font = "DejaVuSans" \/ font = PDF_FONT
  | Raise e => Font.is_Exception e = false
  end /\
  (forall w', is_Some (fs w !! Font.FONT_PATH X) ->
     registerFont "DejaVuSans" (Font.FONT_PATH X) w = (Ok tt, w') ->
     (Font.register_font X registerFont describe PDF_FONT w).1
     = Ok "DejaVuSans") /\
  (fs w !! Font.FONT_PATH X = None ->
   Font.register_font X registerFont describe PDF_FONT w
   = (Ok PDF_FONT,
      printed ("[WARNING] Font not found at " +:+ Font.FONT_PATH X
               +:+ ", fallback to Helvetica") w)).
Proof.
  rewrite register_font_cases.
  destruct (bool_decide (is_Some (fs w !! Font.FONT_PATH X))) eqn:Hfound.
  - apply bool_decide_eq_true in Hfound. split; [|split].
    + destruct (registerFont _ _ w) as [[[]|e] w0]; [by left|].
      destruct (Font.is_Exception e) eqn:He; [by right|exact He].
    + intros w' _ Hreg. by rewrite Hreg.
    + intros Hnone. rewrite Hnone in Hfound. by destruct Hfound.
  - apply bool_decide_eq_false in Hfound.
    split; [by right|]. split; [done|reflexivity].
Qed.

Lemma register_font_falls_back_witness :
  Font.register_font (demo_ext false (demo_args "/data") (mret tt) [])
    (fun _ _ => mret tt) (fun _ => "bad font") "Helvetica" demo_world
  = (Ok "Helvetica",
     printed "[WARNING] Font not found at /app/whisper_transcriber/../fonts/DejaVuSans.ttf, fallback to Helvetica"
       demo_world).
Proof.
  apply (register_font_falls_back
           (demo_ext false (demo_args "/data") (mret tt) [])).
  reflexivity.
Defined.

(** ** Where the documents are written *)

Lemma string_length_app (a b : string) :
  String.length (a +:+ b) = (String.length a + String.length b)%nat.
Proof.
  induction a as [|c a IH]; [reflexivity|].
  change (S (String.length (a +:+ b))
          = S (String.length a + String.length b)). by rewrite IH.
Qed.

Lemma substring_all (s : string) : String.substring 0 (String.length s) s = s.
Proof. induction s as [|c s IH]; [reflexivity|]. cbn. by rewrite IH. Qed.

Lemma substring_none (n : nat) (s : string) :
  String.substring n 0 s = EmptyString.
Proof.
  revert n. induction s as [|c s IH]; intros [|n]; try reflexivity. apply IH.
Qed.

Lemma substring_app_l (a b : string) : forall n m,
  (n + m <= String.length a)%nat ->
  String.substring n m (a +:+ b) = String.substring n m a.
Proof.
  induction a as [|c a IH]; intros n m Hle.
  - cbn in Hle. assert (n = 0%nat) as -> by lia. assert (m = 0%nat) as -> by lia.
    by rewrite !substring_none.
  - change (String c a +:+ b) with (String c (a +:+ b)). cbn in Hle.
    destruct n as [|n].
    + destruct m as [|m]; [reflexivity|]. cbn. rewrite IH by lia. reflexivity.
    + cbn. apply IH. lia.
Qed.

Lemma substring_app_r (a b : string) :
  String.substring (String.length a) (String.length b) (a +:+ b) = b.
Proof.
  induction a as [|c a IH]; [apply substring_all|]. exact IH.
Qed.

(** [splitext] cuts the path in two parts that make it up again. *)
Lemma splitext_concat (p : string) :
  (OsPath.splitext p).1 +:+ (OsPath.splitext p).2 = p.
Proof.
  assert (forall (s : string) n,
            String.substring 0 n s
            +:+ String.substring n (String.length s - n) s = s) as Hsplit.
  { induction s as [|c s IH]; intros [|n]; try reflexivity.
    - cbn [String.length Nat.sub]. rewrite substring_none.
      change (String.substring 0 (S (String.length s)) (String c s))
        with (String c (String.substring 0 (String.length s) s)).
      by rewrite substring_all.
    - change (String c (String.substring 0 n s
                        +:+ String.substring n (String.length s - n) s)
              = String c s). by rewrite IH. }
  unfold OsPath.splitext. destruct (_ && _); cbn [fst snd].
  - apply Hsplit.
  - apply string_app_nil_r.
Qed.

Lemma rfind_from_absent c s : forall i acc,
  occurs c s = false -> PyStr.rfind_from c s i acc = acc.
Proof.
  induction s as [|x s IH]; intros i acc Hno; [reflexivity|].
  cbn in Hno. apply orb_false_elim in Hno as [Hx Hs].
  cbn [PyStr.rfind_from]. rewrite Hx. by apply IH.
Qed.

Lemma rfind_from_app c a b : forall i acc,
  PyStr.rfind_from c (a +:+ b) i acc
  = PyStr.rfind_from c b (i + Z.of_nat (String.length a))%Z
      (PyStr.rfind_from c a i acc).
Proof.
  induction a as [|x a IH]; intros i acc.
  - cbn. by rewrite Z.add_0_r.
  - change (String x a +:+ b) with (String x (a +:+ b)).
    cbn [PyStr.rfind_from String.length]. rewrite IH. f_equal. lia.
Qed.

Lemma rfind_from_bounds c s : forall i acc,
  (acc < i)%Z ->
  (acc <= PyStr.rfind_from c s i acc
   < i + Z.of_nat (String.length s))%Z.
Proof.
  induction s as [|x s IH]; intros i acc Hacc; cbn [PyStr.rfind_from String.length].
  - lia.
  - destruct (Ascii.eqb x c).
    + specialize (IH (i + 1)%Z i ltac:(lia)). lia.
    + specialize (IH (i + 1)%Z acc ltac:(lia)). lia.
Qed.

(** X10: The documents are named after the video: for a path that ends in a dot
    and an extension without dot or slash, after a file name that is more
    than dots, [base_path] is the path without the extension. *)
Theorem base_path_drops_extension (stem ext : string) :
  occurs "." ext = false ->
  occurs "/" ext = false ->
  OsPath.all_dots (basename stem) = false ->
  OsPath.splitext (stem +:+ "." +:+ ext) = (stem, "." +:+ ext).
Proof.
  intros Hdot Hsep Hname. unfold OsPath.splitext, PyStr.rfind.
  change ("." +:+ ext) with (String "." ext).
  rewrite !rfind_from_app. cbn [PyStr.rfind_from].
  change (Ascii.eqb "." ".") with true. change (Ascii.eqb "." "/") with false.
  cbn match.
  rewrite (rfind_from_absent "." ext _ _ Hdot),
    (rfind_from_absent "/" ext _ _ Hsep).
  rewrite Z.add_0_l.
  pose proof (rfind_from_bounds "/" stem 0 (-1) ltac:(lia)) as Hb.
  unfold basename, PyStr.rfind in Hname.
  set (sep := PyStr.rfind_from "/" stem 0 (-1)) in *.
  assert ((sep <? Z.of_nat (String.length stem))%Z = true) as ->
    by (apply Z.ltb_lt; lia).
  rewrite substring_app_l by lia.
  replace (Z.to_nat (Z.of_nat (String.length stem) - (sep + 1)))
    with (String.length stem - Z.to_nat (sep + 1))%nat by lia.
  rewrite Hname. cbn [andb negb].
  rewrite Nat2Z.id, string_length_app.
  replace (String.length stem + String.length (String "." ext)
           - String.length stem)%nat
    with (String.length (String "." ext)) by lia.
  rewrite substring_app_r.
  f_equal. rewrite substring_app_l by lia. apply substring_all.
Qed.

Lemma base_path_drops_extension_witness :
  OsPath.splitext ("/data/talk" +:+ "." +:+ "mp4") = ("/data/talk", "." +:+ "mp4").
Proof. apply base_path_drops_extension; reflexivity. Defined.

(** A video named by its extension alone keeps that name as base: the
    document of ["/data/.mp4"] is ["/data/.mp4.docx"]. *)
Example hidden_video_keeps_name :
  Cli.is_video "/data/.mp4" = true /\
  (OsPath.splitext "/data/.mp4").1 +:+ ".docx" = "/data/.mp4.docx".
Proof. split; reflexivity. Qed.
